(** * The demo server of [test-application.go], embedded and verified

    The Go program is a small HTTP server with five registered routes
    ([/good], [/bad], [/admin], [/health] and the catch-all [/]).  Its
    handlers draw random latencies, wait on timers and on the request
    context, log, and write one response.

    The embedding is shallow.  Every handler is a program of a state monad
    over a [World] (the monotonic clock, the number of random draws and of
    selects so far, the log, the response writer, the start time), reading an
    [Env] of oracles for everything the program cannot decide itself: the
    raw values of the random source, the choice Go's [select] makes when
    both of its channels are ready, and the wall clock.  Theorems quantify
    over all oracles, so they hold for every run.

    Conventions.  Durations and clock readings are nanoseconds in [Z], as
    in Go's [time.Duration].  Time advances only inside waits
    ([time.Sleep] and [select]); the statements between them take no time.
    [net/http] and [time] are not part of the repository: the few
    functions the handlers call ([http.Error], [http.NotFound],
    [ResponseWriter], [ServeMux] matching, [time.Since]) are written after
    their documented behaviour, and the two formatting functions
    ([Duration.String], [Time.Format]) are kept as tagged values. *)

From stdpp Require Import base gmap strings list fin_maps.
From Stdlib Require Import ZArith Lia Ascii Sorted.
From Stdlib Require QArith.

Open Scope string_scope.
Open Scope Z_scope.

(** ** Go values and the data model *)

(** [type User struct { ID int; Name string }] *)
Record User := { ID : Z; Name : string }.

(** The error values the program can meet: [ctx.Err()] of a done context. *)
Inductive error := Canceled | DeadlineExceeded.

(** A [time.Time]: the wall reading and, when the value came from
    [time.Now()], the monotonic reading. *)
Record Time := { wall : Z; monotonic : option Z }.

(** The zero [time.Time], the value of [startTime] before [main] runs. *)
Definition zeroTime : Time := {| wall := 0; monotonic := None |}.

(** Values stored in an [interface{}] and handed to the JSON encoder.
    [VDuration d] is the string [time.Duration(d).String()] and
    [VRFC3339 t] the string [t.Format(time.RFC3339)]. *)
#[warnings="-register-all"]
Inductive Value :=
| VNil
| VInt (z : Z)
| VString (s : string)
| VDuration (d : Z)
| VRFC3339 (t : Z)
| VUsers (us : list User)
| VStrings (l : list string)
| VMap (m : gmap string Value).

(** [type Response struct { Status, Message string; Data interface{} }] *)
Record Response := { Status : string; Message : string; Data : Value }.

(** One argument of a [log.Printf]. *)
Inductive LogArg := AString (s : string) | ADuration (d : Z) | AError (e : error).

(** One [log.Printf(format, args...)]. *)
Record LogEntry := { format : string; args : list LogArg }.

(** What a handler wrote to the body: the line of [fmt.Fprintln] or the
    value given to [json.NewEncoder(w).Encode], each followed by a newline
    in the bytes sent. *)
Inductive Chunk := ChunkText (s : string) | ChunkJSON (r : Response).

(** [http.ResponseWriter]: the header map under construction, the status
    line with the headers frozen when it was written, and the body. *)
Record ResponseWriter := {
  hdr : gmap string (list string);
  wrote : option (Z * gmap string (list string));
  body : list Chunk
}.

Definition newWriter : ResponseWriter :=
  {| hdr := ∅; wrote := None; body := [] |}.

(** [context.Context] of a request: the instant of the monotonic clock at
    which [Done()] is closed (never, when [None]) and the error [Err()]
    reports from then on. *)
Record Context := { done_at : option Z; ctx_err : error }.

(** [*http.Request], the fields a handler can read. *)
Record Request := {
  Method : string;
  Path : string;
  Header : gmap string (list string);
  RemoteAddr : string;
  Ctx : Context
}.

(** ** The environment and the world *)

Record Env := {
  rand_raw : nat -> nat;      (* the n-th raw value of the random source *)
  tie_timer : nat -> bool;    (* the n-th select, if tied, takes the timer case *)
  wall_of : Z -> Z            (* wall clock reading at a monotonic instant *)
}.

Record World := {
  mono : Z;                   (* monotonic clock, ns *)
  draws : nat;                (* random values consumed *)
  selects : nat;              (* selects executed *)
  logs : list LogEntry;       (* log lines, oldest first *)
  writer : ResponseWriter;    (* the writer of the request being served *)
  startTime : Time            (* [var startTime time.Time] *)
}.

(** ** The monad of handlers *)

Definition M (A : Type) : Type := Env -> World -> A * World.

#[global] Instance M_ret : MRet M := fun A a _ w => (a, w).
#[global] Instance M_bind : MBind M := fun A B f m e w =>
  let '(a, w') := m e w in f a e w'.

Definition run {A} (m : M A) (e : Env) (w : World) : A * World := m e w.
Definition exec {A} (m : M A) (e : Env) (w : World) : World := snd (m e w).
Definition eval {A} (m : M A) (e : Env) (w : World) : A := fst (m e w).

Definition gets {A} (f : World -> A) : M A := fun _ w => (f w, w).
Definition ask_env : M Env := fun e w => (e, w).
Definition modify (f : World -> World) : M unit := fun _ w => (tt, f w).

Definition set_mono (t : Z) (w : World) : World :=
  {| mono := t; draws := draws w; selects := selects w; logs := logs w; writer := writer w;
     startTime := startTime w |}.
Definition set_draws (n : nat) (w : World) : World :=
  {| mono := mono w; draws := n; selects := selects w; logs := logs w; writer := writer w;
     startTime := startTime w |}.
Definition set_selects (n : nat) (w : World) : World :=
  {| mono := mono w; draws := draws w; selects := n; logs := logs w; writer := writer w;
     startTime := startTime w |}.
Definition add_log (l : LogEntry) (w : World) : World :=
  {| mono := mono w; draws := draws w; selects := selects w; logs := logs w ++ [l]; writer := writer w;
     startTime := startTime w |}.
Definition set_startTime (t : Time) (w : World) : World :=
  {| mono := mono w; draws := draws w; selects := selects w; logs := logs w; writer := writer w;
     startTime := t |}.
Definition set_writer (rw : ResponseWriter) (w : World) : World :=
  {| mono := mono w; draws := draws w; selects := selects w; logs := logs w; writer := rw;
     startTime := startTime w |}.

(** ** Library calls *)

Definition Millisecond : Z := 1000000.
Definition Second : Z := 1000000000.

(** [log.Printf] *)
Definition Printf (f : string) (a : list LogArg) : M unit :=
  modify (add_log {| format := f; args := a |}).

(** [rand.Intn(n)]: a value in [0, n). *)
Definition Intn (n : nat) : M Z :=
  e ← ask_env; i ← gets draws;
  modify (set_draws (S i));;
  mret (Z.of_nat (rand_raw e i mod n)).

(** [time.Now()] *)
Definition Now : M Time :=
  e ← ask_env; t ← gets mono;
  mret {| wall := wall_of e t; monotonic := Some t |}.

(** [time.Since(t)]: on the monotonic readings when [t] has one. *)
Definition Since (t : Time) : M Z :=
  now ← Now;
  mret (match monotonic t, monotonic now with
        | Some m0, Some m1 => m1 - m0
        | _, _ => wall now - wall t
        end).

(** [t.Unix()]: whole seconds of the wall reading. *)
Definition Unix (t : Time) : Z := wall t / Second.

(** [time.Sleep(d)]: returns at once when [d <= 0]. *)
Definition Sleep (d : Z) : M unit :=
  modify (fun w => set_mono (mono w + Z.max 0 d) w).

(** The outcome of
    [select { case <-time.After(latency): ... case <-ctx.Done(): ... }]. *)
Inductive Selected := TimerFired | ContextDone.

(** The instant the timer channel becomes ready. *)
Definition fire_time (now latency : Z) : Z := now + Z.max 0 latency.

(** The instant the done channel is seen ready, if ever. *)
Definition done_time (now : Z) (ctx : Context) : option Z :=
  Z.max now <$> done_at ctx.

(** The select blocks until the first channel is ready and takes it; when
    both are ready at the same instant Go chooses one of them at random
    ([tie] says whether that choice is the timer).  The result is the case
    taken and the instant at which it is taken. *)
Definition select_case (now latency : Z) (ctx : Context) (tie : bool) : Selected * Z :=
  let fire := fire_time now latency in
  match done_time now ctx with
  | None => (TimerFired, fire)
  | Some d =>
      if d <? fire then (ContextDone, d)
      else if fire <? d then (TimerFired, fire)
      else (if tie then TimerFired else ContextDone, fire)
  end.

Definition select_wait (ctx : Context) (latency : Z) : M Selected :=
  e ← ask_env; now ← gets mono; n ← gets selects;
  let '(sel, t) := select_case now latency ctx (tie_timer e n) in
  modify (set_selects (S n));;
  modify (set_mono t);;
  mret sel.

(** [ctx.Err()] after [Done()] was received. *)
Definition Err (ctx : Context) : error := ctx_err ctx.

(** [http.Header.Get]: the first value stored under the key, or [""]. *)
Definition Header_Get (h : gmap string (list string)) (k : string) : string :=
  match h !! k with
  | Some (v :: _) => v
  | _ => ""
  end.

(** [w.Header().Set(k, v)] *)
Definition Header_Set (k v : string) : M unit :=
  modify (fun w =>
    let rw := writer w in
    set_writer {| hdr := <[k := [v]]> (hdr rw); wrote := wrote rw; body := body rw |} w).

(** [w.Header().Del(k)] *)
Definition Header_Del (k : string) : M unit :=
  modify (fun w =>
    let rw := writer w in
    set_writer {| hdr := delete k (hdr rw); wrote := wrote rw; body := body rw |} w).

(** [w.WriteHeader(code)]: the first call fixes the status and the headers
    sent; later calls change nothing. *)
Definition WriteHeader (code : Z) : M unit :=
  modify (fun w =>
    let rw := writer w in
    match wrote rw with
    | Some _ => w
    | None => set_writer {| hdr := hdr rw; wrote := Some (code, hdr rw); body := body rw |} w
    end).

(** [w.Write]: writes the header with status 200 first if none was written. *)
Definition Write (c : Chunk) : M unit :=
  WriteHeader 200;;
  modify (fun w =>
    let rw := writer w in
    set_writer {| hdr := hdr rw; wrote := wrote rw; body := body rw ++ [c] |} w).

(** [json.NewEncoder(w).Encode(response)].  The values the handlers encode
    are strings, integers, slices and string-keyed maps of these, which the
    encoder never rejects, and the response writer buffers a body of this
    size, so the call returns a nil error. *)
Definition Encode (r : Response) : M (option error) :=
  Write (ChunkJSON r);; mret None.

Definition StatusOK : Z := 200.
Definition StatusUnauthorized : Z := 401.
Definition StatusNotFound : Z := 404.
Definition StatusInternalServerError : Z := 500.
Definition StatusServiceUnavailable : Z := 503.

(** [http.Error(w, msg, code)] of [net/http]: a plain text reply. *)
Definition Error (msg : string) (code : Z) : M unit :=
  Header_Del "Content-Length";;
  Header_Set "Content-Type" "text/plain; charset=utf-8";;
  Header_Set "X-Content-Type-Options" "nosniff";;
  WriteHeader code;;
  Write (ChunkText msg).

(** [http.NotFound(w, r)] of [net/http]. *)
Definition NotFound : M unit := Error "404 page not found" StatusNotFound.

(** [for _, x := range l { body x }] *)
Fixpoint for_range {A} (l : list A) (f : A -> M unit) : M unit :=
  match l with
  | [] => mret tt
  | x :: l' => f x;; for_range l' f
  end.

(** ** The program *)

(** [time.Duration(n+base) * time.Millisecond] *)
Definition latency_of (n base : Z) : Z := (n + base) * Millisecond.

(** [time.Duration(rand.Intn(span)+base) * time.Millisecond] *)
Definition random_latency (span : nat) (base : Z) : M Z :=
  n ← Intn span; mret (latency_of n base).

(** [simulateDatabase(ctx, operation)] *)
Definition simulateDatabase (ctx : Context) (operation : string) : M (option error) :=
  latency ← random_latency 90 10;
  Printf "Database operation: %s (latency: %v)" [AString operation; ADuration latency];;
  sel ← select_wait ctx latency;
  match sel with
  | TimerFired => mret None
  | ContextDone => mret (Some (Err ctx))
  end.

(** [simulateExternalAPI(ctx, endpoint)] *)
Definition simulateExternalAPI (ctx : Context) (endpoint : string) : M (Value * option error) :=
  Printf "Calling external API: %s" [AString endpoint];;
  latency ← random_latency 200 50;
  sel ← select_wait ctx latency;
  match sel with
  | TimerFired =>
      now ← Now;
      mret (VMap {[ "external_data" := VString ("Data from " +:+ endpoint);
                    "timestamp" := VInt (Unix now) ]}, None)
  | ContextDone => mret (VNil, Some (Err ctx))
  end.

Definition sample_users : list User :=
  [ {| ID := 1; Name := "Alice Johnson" |};
    {| ID := 2; Name := "Bob Smith" |};
    {| ID := 3; Name := "Charlie Brown" |} ].

(** [goodHandler(w, r)] *)
Definition goodHandler (r : Request) : M unit :=
  let ctx := Ctx r in
  Printf "Processing good request from %s" [AString (RemoteAddr r)];;
  err ← simulateDatabase ctx "SELECT users WHERE active=true";
  match err with
  | Some e =>
      Printf "Database error: %v" [AError e];;
      Error "Database unavailable" StatusServiceUnavailable
  | None =>
      '(externalData, err) ← simulateExternalAPI ctx "https://api.example.com/status";
      match err with
      | Some e => Printf "External API error: %v" [AError e]
      | None => mret tt
      end;;
      let users := sample_users in
      now ← Now;
      let response :=
        {| Status := "success";
           Message := "Request processed successfully";
           Data := VMap {[ "users" := VUsers users;
                           "external_data" := externalData;
                           "processed_at" := VRFC3339 (wall now) ]} |} in
      Header_Set "Content-Type" "application/json";;
      WriteHeader StatusOK;;
      err ← Encode response;
      match err with
      | Some e => Printf "Error encoding response: %v" [AError e]
      | None => mret tt
      end;;
      Printf "Successfully processed good request" []
  end.

(** [badHandler(w, r)] *)
Definition badHandler (r : Request) : M unit :=
  let ctx := Ctx r in
  Printf "Processing bad request from %s" [AString (RemoteAddr r)];;
  err ← simulateDatabase ctx "SELECT * FROM non_existent_table";
  match err with
  | Some e => Printf "Expected database error: %v" [AError e]
  | None => mret tt
  end;;
  let operations :=
    ["validate_user_permissions"; "check_rate_limits"; "process_payment"] in
  for_range operations (fun op =>
    Printf "Operation failed: %s" [AString op];;
    d ← random_latency 20 5;
    Sleep d);;
  '(_, err) ← simulateExternalAPI ctx "https://api.example.com/broken-endpoint";
  match err with
  | Some e => Printf "External API call failed as expected: %v" [AError e]
  | None => mret tt
  end;;
  now ← Now;
  let response :=
    {| Status := "error";
       Message := "Internal server error occurred";
       Data := VMap {[ "error_code" := VString "INTERNAL_ERROR";
                       "timestamp" := VRFC3339 (wall now) ]} |} in
  Header_Set "Content-Type" "application/json";;
  WriteHeader StatusInternalServerError;;
  err ← Encode response;
  match err with
  | Some e => Printf "Error encoding error response: %v" [AError e]
  | None => mret tt
  end;;
  Printf "Processed bad request with error response" [].

(** [adminHandler(w, r)] *)
Definition adminHandler (r : Request) : M unit :=
  let ctx := Ctx r in
  Printf "Admin access attempted from %s" [AString (RemoteAddr r)];;
  let authToken := Header_Get (Header r) "Authorization" in
  Printf "Checking authorization token: %s" [AString authToken];;
  err ← simulateDatabase ctx "SELECT permissions FROM users WHERE token=?";
  match err with
  | Some e => Printf "Auth database error: %v" [AError e]
  | None => mret tt
  end;;
  let operations :=
    ["validate_token_format"; "check_token_expiry"; "verify_admin_permissions"] in
  for_range operations (fun op =>
    Printf "Auth operation: %s" [AString op];;
    d ← random_latency 15 5;
    Sleep d);;
  Printf "Authorization failed - insufficient permissions" [];;
  now ← Now;
  let response :=
    {| Status := "error";
       Message := "Unauthorized access - admin privileges required";
       Data := VMap {[ "error_code" := VString "UNAUTHORIZED";
                       "required_role" := VString "admin";
                       "timestamp" := VRFC3339 (wall now) ]} |} in
  Header_Set "Content-Type" "application/json";;
  WriteHeader StatusUnauthorized;;
  err ← Encode response;
  match err with
  | Some e => Printf "Error encoding unauthorized response: %v" [AError e]
  | None => mret tt
  end;;
  Printf "Rejected admin request - unauthorized" [].

(** [healthHandler(w, r)] *)
Definition healthHandler (r : Request) : M unit :=
  Printf "Health check from %s" [AString (RemoteAddr r)];;
  t0 ← gets startTime;
  uptime ← Since t0;
  now ← Now;
  let response :=
    {| Status := "healthy";
       Message := "Service is running";
       Data := VMap {[ "uptime" := VDuration uptime;
                       "timestamp" := VRFC3339 (wall now) ]} |} in
  Header_Set "Content-Type" "application/json";;
  WriteHeader StatusOK;;
  Encode response;;
  mret tt.

(** The function literal registered for [/] in [main]. *)
Definition rootHandler (r : Request) : M unit :=
  if decide (Path r ≠ "/") then NotFound
  else
    let response :=
      {| Status := "success";
         Message := "OpenTelemetry Demo Server";
         Data := VMap {[ "endpoints" := VStrings ["/good"; "/bad"; "/admin"; "/health"];
                         "version" := VString "1.0.0" ]} |} in
    Header_Set "Content-Type" "application/json";;
    Encode response;;
    mret tt.

(** ** The server *)

(** The routes [main] registers with [http.HandleFunc], in its order. *)
Definition routes : list (string * (Request -> M unit)) :=
  [ ("/good", goodHandler);
    ("/bad", badHandler);
    ("/admin", adminHandler);
    ("/health", healthHandler);
    ("/", rootHandler) ].

(** A [ServeMux] pattern without method or host: one ending in [/] names
    the subtree below it, any other names exactly one path.  The mux
    matches the path after [cleanPath] (below): a request whose path
    [cleanPath] changes (doubled slashes, [.] or [..] elements) is
    answered by the mux itself with a redirect to the clean path and
    reaches no handler. *)
Definition ends_with_slash (p : string) : bool :=
  match String.get (Nat.pred (String.length p)) p with
  | Some c => bool_decide (c = "/"%char)
  | None => false
  end.

Definition pattern_matches (p path : string) : bool :=
  if ends_with_slash p then String.prefix p path else bool_decide (p = path).

(** Of the patterns that match, the mux takes the longest. *)
Fixpoint mux_handler (rs : list (string * (Request -> M unit))) (path : string)
    (best : option (string * (Request -> M unit))) : option (string * (Request -> M unit)) :=
  match rs with
  | [] => best
  | (p, h) :: rs' =>
      let best' :=
        if pattern_matches p path then
          match best with
          | Some (q, _) =>
              if (String.length q <? String.length p)%nat then Some (p, h) else best
          | None => Some (p, h)
          end
        else best in
      mux_handler rs' path best'
  end.

(** Splitting a path at its slashes; [cur] is the element being read. *)
Fixpoint split_slash (s : string) (cur : string) : list string :=
  match s with
  | EmptyString => [cur]
  | String c s' =>
      if bool_decide (c = "/"%char) then cur :: split_slash s' ""
      else split_slash s' (cur +:+ String c "")
  end.

(** One element of a rooted path, read by [path.Clean]: an empty element
    or [.] is dropped, [..] drops the element before it (none at the root),
    any other element is kept.  The stack holds the elements kept, the
    last one first. *)
Definition clean_element (stack : list string) (elem : string) : list string :=
  if bool_decide (elem = "") then stack
  else if bool_decide (elem = ".") then stack
  else if bool_decide (elem = "..") then tail stack
  else elem :: stack.

(** [path.Clean(p)] for a rooted [p]: one slash between elements, no [.]
    and [..] elements, no trailing slash except for the root. *)
Definition Clean_rooted (p : string) : string :=
  "/" +:+ String.concat "/" (rev (fold_left clean_element (split_slash p "") [])).

(** [cleanPath(p)] of [net/http]: the canonical path of [p], with the
    trailing slash of [p] kept. *)
Definition cleanPath (p : string) : string :=
  if bool_decide (p = "") then "/"
  else
    let p := if String.prefix "/" p then p else "/" +:+ p in
    let np := Clean_rooted p in
    if ends_with_slash p && negb (bool_decide (np = "/")) then np +:+ "/" else np.

(** What the client receives: status, headers and body.  A handler that
    returns without writing gets status 200 and its headers. *)
Record HTTPResponse := {
  status : Z;
  headers : gmap string (list string);
  sent : list Chunk
}.

Definition finish (rw : ResponseWriter) : HTTPResponse :=
  match wrote rw with
  | Some (code, h) => {| status := code; headers := h; sent := body rw |}
  | None => {| status := StatusOK; headers := hdr rw; sent := body rw |}
  end.

(** The handler the mux selects for a path; its own [NotFound] when no
    pattern matches. *)
Definition handler_for (path : string) : Request -> M unit :=
  match mux_handler routes path None with
  | Some (_, h) => h
  | None => fun _ => NotFound
  end.

(** Serving one request that the mux hands to a handler: a fresh writer,
    the handler the mux selects, and the finished response.  This is what
    the server does for every request whose path is clean,
    [cleanPath (Path r) = Path r]; the redirect with which the mux answers
    any other path is not part of it, and a statement about every reply of
    the server carries that hypothesis. *)
Definition ServeHTTP (r : Request) : M HTTPResponse :=
  modify (set_writer newWriter);;
  handler_for (Path r) r;;
  rw ← gets writer;
  mret (finish rw).

(** The part of [main] that runs before the server listens: the start time
    is taken once; seeding the random source consumes no random value. *)
Definition main_init : M unit :=
  now ← Now;
  modify (set_startTime now).

(** What happens while the server runs: time passes, or a request is
    served.  Requests are served one after the other; handlers share only
    [startTime], which none of them writes. *)
Inductive Event := Elapse (d : N) | Serve (r : Request).

Definition step (ev : Event) : M (list (Request * HTTPResponse)) :=
  match ev with
  | Elapse d => modify (fun w => set_mono (mono w + Z.of_N d) w);; mret []
  | Serve r => resp ← ServeHTTP r; mret [(r, resp)]
  end.

(** The requests served with their responses, in the order served. *)
Fixpoint serve_all (evs : list Event) : M (list (Request * HTTPResponse)) :=
  match evs with
  | [] => mret []
  | ev :: evs' => a ← step ev; b ← serve_all evs'; mret (app a b)
  end.

(** [main]: initialisation, then the server loop over the events. *)
Definition main (evs : list Event) : M (list (Request * HTTPResponse)) :=
  main_init;; serve_all evs.

(** ** Reading a response *)

Definition content_type (resp : HTTPResponse) : string :=
  Header_Get (headers resp) "Content-Type".

(** The envelope of a response whose body is exactly one encoded value. *)
Definition envelope (resp : HTTPResponse) : option Response :=
  match sent resp with
  | [ChunkJSON r] => Some r
  | _ => None
  end.

(** [data.<key>] of an envelope. *)
Definition data_field (key : string) (r : Response) : option Value :=
  match Data r with
  | VMap m => m !! key
  | _ => None
  end.

(** A world in which nothing has happened yet. *)
Definition world0 : World :=
  {| mono := 0; draws := 0; selects := 0; logs := []; writer := newWriter;
     startTime := zeroTime |}.

Definition env0 : Env :=
  {| rand_raw := fun _ => 0%nat; tie_timer := fun _ => true; wall_of := fun t => t |}.

Definition background : Context := {| done_at := None; ctx_err := Canceled |}.
Definition cancelled_at (t : Z) : Context := {| done_at := Some t; ctx_err := Canceled |}.

Definition request (m p : string) (c : Context) : Request :=
  {| Method := m; Path := p; Header := ∅; RemoteAddr := "127.0.0.1:40000"; Ctx := c |}.

Definition with_method (m : string) (r : Request) : Request :=
  {| Method := m; Path := Path r; Header := Header r; RemoteAddr := RemoteAddr r;
     Ctx := Ctx r |}.

Definition with_header (h : gmap string (list string)) (r : Request) : Request :=
  {| Method := Method r; Path := Path r; Header := h; RemoteAddr := RemoteAddr r;
     Ctx := Ctx r |}.

(** ** Quantities the statements speak about *)

(** The value [rand.Intn(span)] returns as the [i]-th draw. *)
Definition Intn_at (e : Env) (i : nat) (span : nat) : Z :=
  Z.of_nat (rand_raw e i mod span).

(** The latency [random_latency span base] computes as the [i]-th draw. *)
Definition latency_at (span : nat) (base : Z) (e : Env) (i : nat) : Z :=
  latency_of (Intn_at e i span) base.

(** The latency of a database wait as a function of what [rand.Intn(90)]
    returned. *)
Definition database_latency (n : nat) : Z := latency_of (Z.of_nat n) 10.

(** The case the select of a wait started in world [w] takes, and the
    instant it ends. *)
Definition wait_case (e : Env) (w : World) (ctx : Context) (latency : Z) : Selected :=
  fst (select_case (mono w) latency ctx (tie_timer e (selects w))).

Definition wait_end (e : Env) (w : World) (ctx : Context) (latency : Z) : Z :=
  snd (select_case (mono w) latency ctx (tie_timer e (selects w))).

(** The database wait of a handler entered in world [w]: it is the first
    draw and the first select of the handler. *)
Definition database_wait (e : Env) (w : World) (ctx : Context) : Selected :=
  wait_case e w ctx (latency_at 90 10 e (draws w)).

(** The external call of [goodHandler] entered in world [w]: it starts in
    the world the database wait leaves. *)
Definition external_wait (e : Env) (w : World) (ctx : Context) : Selected :=
  let w1 := exec (simulateDatabase ctx "SELECT users WHERE active=true") e w in
  wait_case e w1 ctx (latency_at 200 50 e (draws w1)).

(** Time a program takes. *)
Definition elapsed {A} (m : M A) (e : Env) (w : World) : Z :=
  mono (exec m e w) - mono w.

(** The duration behind [data.uptime]. *)
Definition uptime_of (resp : HTTPResponse) : option Z :=
  match envelope resp ≫= data_field "uptime" with
  | Some (VDuration d) => Some d
  | _ => None
  end.

(** The uptimes the [/health] requests of an access log were answered
    with, in order. *)
Definition health_uptimes (served : list (Request * HTTPResponse)) : list Z :=
  omap (fun '(r, resp) =>
          if decide (Path r = "/health") then uptime_of resp else None) served.

(** The writer after a handler set the JSON content type, wrote the status
    and encoded one envelope into a fresh writer. *)
Definition json_writer (code : Z) (r : Response) : ResponseWriter :=
  {| hdr := {[ "Content-Type" := ["application/json"] ]};
     wrote := Some (code, {[ "Content-Type" := ["application/json"] ]});
     body := [ChunkJSON r] |}.

(** The writer after [http.Error] on a fresh writer. *)
Definition error_writer (msg : string) (code : Z) : ResponseWriter :=
  let h : gmap string (list string) :=
    <[ "X-Content-Type-Options" := ["nosniff"] ]>
      (<[ "Content-Type" := ["text/plain; charset=utf-8"] ]> (delete "Content-Length" ∅)) in
  {| hdr := h; wrote := Some (code, h); body := [ChunkText msg] |}.

(** ** What the calls return and log *)

(** The error [simulateDatabase] returns for a case of its select. *)
Definition db_result (sel : Selected) (ctx : Context) : option error :=
  match sel with TimerFired => None | ContextDone => Some (Err ctx) end.

(** The line [simulateDatabase] logs. *)
Definition db_log (op : string) (latency : Z) : LogEntry :=
  {| format := "Database operation: %s (latency: %v)";
     args := [AString op; ADuration latency] |}.

(** The line [simulateExternalAPI] logs. *)
Definition api_log (endpoint : string) : LogEntry :=
  {| format := "Calling external API: %s"; args := [AString endpoint] |}.

(** The payload of a completed external call that ended at instant [t]. *)
Definition api_payload (e : Env) (endpoint : string) (t : Z) : Value :=
  VMap {[ "external_data" := VString ("Data from " +:+ endpoint);
          "timestamp" := VInt (Unix {| wall := wall_of e t; monotonic := Some t |}) ]}.

(** What [simulateExternalAPI] returns for a case of its select. *)
Definition api_result (e : Env) (endpoint : string) (ctx : Context)
    (sel : Selected) (t : Z) : Value * option error :=
  match sel with
  | TimerFired => (api_payload e endpoint t, None)
  | ContextDone => (VNil, Some (Err ctx))
  end.

(** The envelopes of the four fixed-outcome handlers, as sent at wall
    time [t]. *)
Definition good_envelope (externalData : Value) (t : Z) : Response :=
  {| Status := "success";
     Message := "Request processed successfully";
     Data := VMap {[ "users" := VUsers sample_users;
                     "external_data" := externalData;
                     "processed_at" := VRFC3339 t ]} |}.

Definition bad_envelope (t : Z) : Response :=
  {| Status := "error";
     Message := "Internal server error occurred";
     Data := VMap {[ "error_code" := VString "INTERNAL_ERROR";
                     "timestamp" := VRFC3339 t ]} |}.

Definition admin_envelope (t : Z) : Response :=
  {| Status := "error";
     Message := "Unauthorized access - admin privileges required";
     Data := VMap {[ "error_code" := VString "UNAUTHORIZED";
                     "required_role" := VString "admin";
                     "timestamp" := VRFC3339 t ]} |}.

Definition health_envelope (uptime t : Z) : Response :=
  {| Status := "healthy";
     Message := "Service is running";
     Data := VMap {[ "uptime" := VDuration uptime;
                     "timestamp" := VRFC3339 t ]} |}.

Definition root_envelope : Response :=
  {| Status := "success";
     Message := "OpenTelemetry Demo Server";
     Data := VMap {[ "endpoints" := VStrings ["/good"; "/bad"; "/admin"; "/health"];
                     "version" := VString "1.0.0" ]} |}.

(** The three delays of a loop of sleeps entered with [i] draws consumed:
    they are the draws [i], [i+1] and [i+2].  In [badHandler] and
    [adminHandler] the loop follows the database wait, which consumed the
    first draw of the handler. *)
Definition sleeps (span : nat) (base : Z) (e : Env) (i : nat) : Z :=
  Z.max 0 (latency_at span base e i)
  + Z.max 0 (latency_at span base e (S i))
  + Z.max 0 (latency_at span base e (S (S i))).

(** A relation between the world before and after a program: the
    monotonic clock did not go back and [startTime] was not written. *)
Definition clock_frame (w w' : World) : Prop :=
  mono w <= mono w' /\ startTime w' = startTime w.

(** A program keeps a relation between the worlds before and after it. *)
Definition preserves {A} (R : World -> World -> Prop) (m : M A) : Prop :=
  forall e w, R w (exec m e w).

(** What a served request must satisfy if it is a [/health] request:
    status 200 and an uptime that is a duration of at least zero. *)
Definition health_ok (p : Request * HTTPResponse) : Prop :=
  Path (fst p) = "/health" ->
  status (snd p) = StatusOK /\ exists d, uptime_of (snd p) = Some d /\ 0 <= d.

(** ** The distribution of the database latency *)

(** The number of outcomes of [rand.Intn(90)] for which the database
    latency is [d]. *)
Definition outcomes_giving (d : Z) : nat :=
  length (filter (fun n => database_latency n = d) (seq 0 90)).

(** The probability that a database wait draws the latency [d], the
    ninety outcomes of [rand.Intn(90)] being equally likely. *)
Definition latency_probability (d : Z) : QArith_base.Q :=
  QArith_base.Qmake (Z.of_nat (outcomes_giving d)) 90.

(** ** Relations between runs *)

(** Two worlds that differ at most in their logs. *)
Definition same_but_logs (w1 w2 : World) : Prop :=
  mono w1 = mono w2 /\ draws w1 = draws w2 /\ selects w1 = selects w2 /\
  writer w1 = writer w2 /\ startTime w1 = startTime w2.

(** Two worlds with the same clock, random source, select count and start
    time; their logs and writers may differ. *)
Definition same_core (w1 w2 : World) : Prop :=
  mono w1 = mono w2 /\ draws w1 = draws w2 /\ selects w1 = selects w2 /\
  startTime w1 = startTime w2.

(** Two programs that, started in worlds differing at most in their logs,
    return the same value and leave such worlds: neither reads the log. *)
Definition lockstep {A} (m1 m2 : M A) : Prop :=
  forall e w1 w2, same_but_logs w1 w2 ->
    eval m1 e w1 = eval m2 e w2 /\ same_but_logs (exec m1 e w1) (exec m2 e w2).

(** ** Shapes of replies and logs *)

(** The keys of [data] in an envelope. *)
Definition data_keys (r : Response) : gset string :=
  match Data r with
  | VMap m => dom m
  | _ => ∅
  end.

(** The latency of an external call as a function of what
    [rand.Intn(200)] returned. *)
Definition external_latency (n : nat) : Z := latency_of (Z.of_nat n) 50.

(** The replies the server can give to a request served in world [w]:
    one case per way through the handlers. *)
Inductive reply_case (e : Env) (w : World) (r : Request) (resp : HTTPResponse) : Prop :=
| reply_good ext t :
    Path r = "/good" -> database_wait e w (Ctx r) = TimerFired ->
    resp = finish (json_writer StatusOK (good_envelope ext t)) -> reply_case e w r resp
| reply_unavailable :
    Path r = "/good" -> database_wait e w (Ctx r) = ContextDone ->
    resp = finish (error_writer "Database unavailable" StatusServiceUnavailable) ->
    reply_case e w r resp
| reply_bad t :
    Path r = "/bad" ->
    resp = finish (json_writer StatusInternalServerError (bad_envelope t)) ->
    reply_case e w r resp
| reply_admin t :
    Path r = "/admin" ->
    resp = finish (json_writer StatusUnauthorized (admin_envelope t)) ->
    reply_case e w r resp
| reply_health u t :
    Path r = "/health" ->
    resp = finish (json_writer StatusOK (health_envelope u t)) -> reply_case e w r resp
| reply_root :
    Path r = "/" ->
    resp = finish (json_writer StatusOK root_envelope) -> reply_case e w r resp
| reply_not_found :
    Path r <> "/" -> Path r <> "/good" -> Path r <> "/bad" ->
    Path r <> "/admin" -> Path r <> "/health" ->
    resp = finish (error_writer "404 page not found" StatusNotFound) ->
    reply_case e w r resp.

(** The log of the second world starts with the log of the first. *)
Definition log_grows (w w' : World) : Prop := logs w `prefix_of` logs w'.

(** The line a handler logs first, for the paths whose handler logs. *)
Definition first_line (r : Request) : option LogEntry :=
  if decide (Path r = "/good")
  then Some {| format := "Processing good request from %s"; args := [AString (RemoteAddr r)] |}
  else if decide (Path r = "/bad")
  then Some {| format := "Processing bad request from %s"; args := [AString (RemoteAddr r)] |}
  else if decide (Path r = "/admin")
  then Some {| format := "Admin access attempted from %s"; args := [AString (RemoteAddr r)] |}
  else if decide (Path r = "/health")
  then Some {| format := "Health check from %s"; args := [AString (RemoteAddr r)] |}
  else None.

(** * Proofs *)

(** ** Running programs *)

Lemma run_ret {A} (a : A) e w : run (mret a) e w = (a, w).
Proof. reflexivity. Qed.

Lemma run_bind {A B} (m : M A) (f : A -> M B) e w :
  run (m ≫= f) e w = run (f (fst (run m e w))) e (snd (run m e w)).
Proof. unfold run, mbind, M_bind. destruct (m e w); reflexivity. Qed.

Lemma run_modify f e w : run (modify f) e w = (tt, f w).
Proof. reflexivity. Qed.

Lemma run_gets {A} (f : World -> A) e w : run (gets f) e w = (f w, w).
Proof. reflexivity. Qed.

Lemma run_ask e w : run ask_env e w = (e, w).
Proof. reflexivity. Qed.

Lemma exec_run {A} (m : M A) e w : exec m e w = snd (run m e w).
Proof. reflexivity. Qed.

Lemma eval_run {A} (m : M A) e w : eval m e w = fst (run m e w).
Proof. reflexivity. Qed.

(** Projections of a world built by the setters. *)
Ltac wsimpl :=
  cbn [fst snd mono draws selects logs writer startTime
       set_mono set_draws set_selects add_log set_writer set_startTime
       hdr wrote body].

(** Run the monadic plumbing away. *)
Ltac mrun :=
  repeat (first [ rewrite run_bind | rewrite run_ret | rewrite run_modify
                | rewrite run_gets | rewrite run_ask ]; cbn beta; wsimpl).

(** One step of a program whose first call has the run equation [L]. *)
Tactic Notation "mstep" uconstr(L) := rewrite run_bind, L; cbn beta; wsimpl.

Lemma run_Printf f a e w :
  run (Printf f a) e w = (tt, add_log {| format := f; args := a |} w).
Proof. reflexivity. Qed.

Lemma run_random_latency span base e w :
  run (random_latency span base) e w =
  (latency_at span base e (draws w), set_draws (S (draws w)) w).
Proof. unfold random_latency, Intn. mrun. reflexivity. Qed.

Lemma run_select_wait ctx latency e w :
  run (select_wait ctx latency) e w =
  (wait_case e w ctx latency,
   set_mono (wait_end e w ctx latency) (set_selects (S (selects w)) w)).
Proof.
  unfold select_wait, wait_case, wait_end. mrun.
  destruct (select_case _ _ _ _) as [sel t]. mrun. reflexivity.
Qed.

Lemma run_Now e w :
  run Now e w = ({| wall := wall_of e (mono w); monotonic := Some (mono w) |}, w).
Proof. unfold Now. mrun. reflexivity. Qed.

Lemma run_Sleep d e w : run (Sleep d) e w = (tt, set_mono (mono w + Z.max 0 d) w).
Proof. reflexivity. Qed.

Lemma run_simulateDatabase ctx op e w :
  run (simulateDatabase ctx op) e w =
  (db_result (database_wait e w ctx) ctx,
   set_mono (wait_end e w ctx (latency_at 90 10 e (draws w)))
     (set_selects (S (selects w))
        (add_log (db_log op (latency_at 90 10 e (draws w)))
           (set_draws (S (draws w)) w)))).
Proof.
  unfold simulateDatabase, database_wait.
  mstep run_random_latency. mstep run_Printf. mstep run_select_wait.
  unfold wait_case, wait_end; wsimpl.
  destruct (fst _); reflexivity.
Qed.

Lemma run_simulateExternalAPI ctx endpoint e w :
  run (simulateExternalAPI ctx endpoint) e w =
  (api_result e endpoint ctx
     (wait_case e w ctx (latency_at 200 50 e (draws w)))
     (wait_end e w ctx (latency_at 200 50 e (draws w))),
   set_mono (wait_end e w ctx (latency_at 200 50 e (draws w)))
     (set_selects (S (selects w))
        (set_draws (S (draws w)) (add_log (api_log endpoint) w)))).
Proof.
  unfold simulateExternalAPI.
  mstep run_Printf. mstep run_random_latency. mstep run_select_wait.
  unfold wait_case, wait_end; wsimpl.
  destruct (fst _); [|reflexivity].
  rewrite run_bind, run_Now. reflexivity.
Qed.

(** [http.Error] on a fresh writer. *)
Lemma run_Error msg code e w :
  writer w = newWriter ->
  run (Error msg code) e w = (tt, set_writer (error_writer msg code) w).
Proof.
  intros Hw. unfold Error, Header_Del, Header_Set, Write, WriteHeader.
  mrun. rewrite Hw. cbn [hdr wrote body newWriter]. mrun. reflexivity.
Qed.

(** ** The select *)

Lemma select_case_never now latency ctx tie :
  done_at ctx = None ->
  select_case now latency ctx tie = (TimerFired, now + Z.max 0 latency).
Proof. intros H. unfold select_case, done_time, fire_time. rewrite H. reflexivity. Qed.

Lemma select_case_before now latency ctx tie c :
  done_at ctx = Some c -> 0 < latency -> c < now + latency ->
  select_case now latency ctx tie = (ContextDone, Z.max now c).
Proof.
  intros H Hl Hc. unfold select_case, done_time, fire_time. rewrite H. cbn.
  destruct (Z.ltb_spec (Z.max now c) (now + Z.max 0 latency)); [reflexivity | lia].
Qed.

Lemma select_case_after now latency ctx tie c :
  done_at ctx = Some c -> now + Z.max 0 latency < c ->
  select_case now latency ctx tie = (TimerFired, now + Z.max 0 latency).
Proof.
  intros H Hc. unfold select_case, done_time, fire_time. rewrite H. cbn.
  destruct (Z.ltb_spec (Z.max now c) (now + Z.max 0 latency)); [lia |].
  destruct (Z.ltb_spec (now + Z.max 0 latency) (Z.max now c)); [reflexivity | lia].
Qed.

Lemma select_case_bounds now latency ctx tie :
  now <= snd (select_case now latency ctx tie) <= now + Z.max 0 latency.
Proof.
  unfold select_case, done_time, fire_time.
  destruct (done_at ctx) as [c|]; cbn; [|lia].
  destruct (Z.ltb_spec (Z.max now c) (now + Z.max 0 latency)); cbn; [lia|].
  destruct (Z.ltb_spec (now + Z.max 0 latency) (Z.max now c)); cbn; lia.
Qed.

(** The timer case is taken at the instant the timer fires. *)
Lemma select_case_timer now latency ctx tie t :
  select_case now latency ctx tie = (TimerFired, t) -> t = now + Z.max 0 latency.
Proof.
  unfold select_case, done_time, fire_time.
  destruct (done_at ctx) as [c|]; cbn; [|congruence].
  destruct (Z.ltb_spec (Z.max now c) (now + Z.max 0 latency)); [congruence|].
  destruct (Z.ltb_spec (now + Z.max 0 latency) (Z.max now c)); congruence.
Qed.

(** The done case is taken only when the context is done by then. *)
Lemma select_case_done now latency ctx tie t :
  select_case now latency ctx tie = (ContextDone, t) ->
  exists c, done_at ctx = Some c /\ t = Z.max now c /\ c <= now + Z.max 0 latency.
Proof.
  unfold select_case, done_time, fire_time.
  destruct (done_at ctx) as [c|]; cbn; [|congruence].
  destruct (Z.ltb_spec (Z.max now c) (now + Z.max 0 latency)).
  - intros [= <-]. exists c. repeat split; lia.
  - destruct (Z.ltb_spec (now + Z.max 0 latency) (Z.max now c)); [congruence|].
    destruct tie; [congruence|]. intros [= <-]. exists c. repeat split; lia.
Qed.

Lemma latency_at_bounds span base e i :
  (0 < span)%nat ->
  base * Millisecond <= latency_at span base e i < (Z.of_nat span + base) * Millisecond.
Proof.
  intros Hs. unfold latency_at, latency_of, Intn_at, Millisecond.
  pose proof (Nat.mod_upper_bound (rand_raw e i) span ltac:(lia)). lia.
Qed.

(** ** The handlers, run *)

Lemma run_json_reply_then {B} code r (k : option error -> M B) e w :
  writer w = newWriter ->
  run (Header_Set "Content-Type" "application/json";; WriteHeader code;; Encode r ≫= k) e w
  = run (k None) e (set_writer (json_writer code r) w).
Proof.
  intros Hw. unfold Header_Set, Encode, Write, WriteHeader.
  mstep run_modify. mstep run_modify. rewrite Hw. cbn [hdr wrote body newWriter].
  rewrite !run_bind, !run_modify. wsimpl. reflexivity.
Qed.

Lemma run_sleep_step f a span base e w :
  run (Printf f a;; d ← random_latency span base; Sleep d) e w =
  (tt, set_mono (mono w + Z.max 0 (latency_at span base e (draws w)))
         (set_draws (S (draws w)) (add_log {| format := f; args := a |} w))).
Proof. mstep run_Printf. mstep run_random_latency. rewrite run_Sleep. reflexivity. Qed.

Lemma run_sleep_loop f a b c span base e w :
  run (for_range [a; b; c] (fun op =>
         Printf f [AString op];; d ← random_latency span base; Sleep d)) e w =
  (tt, set_mono (mono w + sleeps span base e (draws w))
         (set_draws (S (S (S (draws w))))
            (add_log {| format := f; args := [AString c] |}
               (add_log {| format := f; args := [AString b] |}
                  (add_log {| format := f; args := [AString a] |} w))))).
Proof.
  cbn [for_range].
  mstep run_sleep_step. mstep run_sleep_step. mstep run_sleep_step.
  rewrite run_ret. unfold sleeps. rewrite !Z.add_assoc. reflexivity.
Qed.

Lemma run_Since t e w :
  run (Since t) e w =
  (match monotonic t with
   | Some m0 => mono w - m0
   | None => wall_of e (mono w) - wall t
   end, w).
Proof.
  unfold Since. mstep run_Now. rewrite run_ret. cbn.
  destruct (monotonic t); reflexivity.
Qed.

(** A branch that only logs an error, or does nothing. *)
Ltac log_branch := first [ mstep run_ret | mstep run_Printf ].

Lemma goodHandler_cancelled r e w :
  writer w = newWriter ->
  database_wait e w (Ctx r) = ContextDone ->
  writer (exec (goodHandler r) e w)
  = error_writer "Database unavailable" StatusServiceUnavailable /\
  db_log "SELECT users WHERE active=true" (latency_at 90 10 e (draws w))
    ∈ logs (exec (goodHandler r) e w).
Proof.
  intros Hw Hdb. rewrite exec_run. unfold goodHandler.
  mstep run_Printf. mstep run_simulateDatabase.
  change (database_wait e (add_log _ w) (Ctx r)) with (database_wait e w (Ctx r)).
  rewrite Hdb. cbn [db_result].
  mstep run_Printf.
  rewrite run_Error by exact Hw. wsimpl. split; [reflexivity | set_solver].
Qed.

Lemma goodHandler_completed r e w :
  writer w = newWriter ->
  database_wait e w (Ctx r) = TimerFired ->
  let w1 := exec (simulateDatabase (Ctx r) "SELECT users WHERE active=true") e w in
  let latency := latency_at 200 50 e (draws w1) in
  let w' := exec (goodHandler r) e w in
  mono w' = wait_end e w1 (Ctx r) latency /\
  writer w' =
    json_writer StatusOK
      (good_envelope
         (fst (api_result e "https://api.example.com/status" (Ctx r)
            (external_wait e w (Ctx r)) (mono w')))
         (wall_of e (mono w'))) /\
  (external_wait e w (Ctx r) = ContextDone ->
   {| format := "External API error: %v"; args := [AError (Err (Ctx r))] |} ∈ logs w') /\
  db_log "SELECT users WHERE active=true" (latency_at 90 10 e (draws w)) ∈ logs w'.
Proof.
  intros Hw Hdb w1 latency w'. subst w' latency w1.
  unfold external_wait. rewrite !exec_run. rewrite run_simulateDatabase. wsimpl.
  unfold goodHandler.
  mstep run_Printf. mstep run_simulateDatabase.
  change (database_wait e (add_log _ w) (Ctx r)) with (database_wait e w (Ctx r)).
  rewrite Hdb. cbn [db_result].
  mstep run_simulateExternalAPI.
  unfold wait_case, wait_end; wsimpl.
  destruct (select_case _ _ _ _) as [sel t]; cbn [fst snd].
  destruct sel; cbn [api_result]; log_branch.
  all: mstep run_Now; rewrite run_json_reply_then by exact Hw.
  all: mstep run_ret; rewrite run_Printf; wsimpl; repeat split.
  all: try discriminate; set_solver.
Qed.

Lemma badHandler_run r e w :
  writer w = newWriter ->
  let w' := exec (badHandler r) e w in
  let t1 := wait_end e w (Ctx r) (latency_at 90 10 e (draws w)) in
  mono w' = snd (select_case (t1 + sleeps 20 5 e (S (draws w)))
                   (latency_at 200 50 e (S (S (S (S (draws w))))))
                   (Ctx r) (tie_timer e (S (selects w)))) /\
  writer w' = json_writer StatusInternalServerError (bad_envelope (wall_of e (mono w'))) /\
  db_log "SELECT * FROM non_existent_table" (latency_at 90 10 e (draws w)) ∈ logs w'.
Proof.
  intros Hw w' t1. subst w' t1. rewrite exec_run. unfold badHandler.
  mstep run_Printf. mstep run_simulateDatabase.
  unfold database_wait, wait_case, wait_end; wsimpl.
  destruct (select_case (mono w) _ _ _) as [sel1 t1]; cbn [fst snd].
  destruct sel1; cbn [db_result]; log_branch.
  all: mstep run_sleep_loop.
  all: mstep run_simulateExternalAPI.
  all: unfold wait_case, wait_end; wsimpl.
  all: destruct (select_case _ _ _ _) as [sel2 t2]; cbn [fst snd].
  all: destruct sel2; cbn [api_result]; log_branch.
  all: mstep run_Now; rewrite run_json_reply_then by exact Hw.
  all: mstep run_ret; rewrite run_Printf; wsimpl.
  all: repeat split; set_solver.
Qed.

Lemma adminHandler_run r e w :
  writer w = newWriter ->
  let w' := exec (adminHandler r) e w in
  let t1 := wait_end e w (Ctx r) (latency_at 90 10 e (draws w)) in
  mono w' = t1 + sleeps 15 5 e (S (draws w)) /\
  writer w' = json_writer StatusUnauthorized (admin_envelope (wall_of e (mono w'))) /\
  {| format := "Checking authorization token: %s";
     args := [AString (Header_Get (Header r) "Authorization")] |} ∈ logs w' /\
  db_log "SELECT permissions FROM users WHERE token=?" (latency_at 90 10 e (draws w))
    ∈ logs w'.
Proof.
  intros Hw w' t1. subst w' t1. rewrite exec_run. unfold adminHandler.
  mstep run_Printf. mstep run_Printf. mstep run_simulateDatabase.
  unfold database_wait, wait_case, wait_end; wsimpl.
  destruct (select_case (mono w) _ _ _) as [sel1 t1]; cbn [fst snd].
  destruct sel1; cbn [db_result]; log_branch.
  all: mstep run_sleep_loop.
  all: mstep run_Printf.
  all: mstep run_Now; rewrite run_json_reply_then by exact Hw.
  all: mstep run_ret; rewrite run_Printf; wsimpl.
  all: repeat split; set_solver.
Qed.

Lemma healthHandler_run r e w :
  writer w = newWriter ->
  let w' := exec (healthHandler r) e w in
  mono w' = mono w /\
  writer w' = json_writer StatusOK
                (health_envelope (eval (Since (startTime w)) e w) (wall_of e (mono w))).
Proof.
  intros Hw w'. subst w'. rewrite exec_run, eval_run. unfold healthHandler.
  mstep run_Printf. mstep run_gets. mstep run_Since. mstep run_Now.
  rewrite run_json_reply_then by exact Hw. rewrite run_ret. wsimpl.
  rewrite run_Since. repeat split.
Qed.

Lemma rootHandler_run r e w :
  writer w = newWriter ->
  writer (exec (rootHandler r) e w) =
    if decide (Path r ≠ "/")
    then error_writer "404 page not found" StatusNotFound
    else json_writer StatusOK root_envelope.
Proof.
  intros Hw. rewrite exec_run. unfold rootHandler.
  destruct (decide (Path r ≠ "/")).
  - unfold NotFound. rewrite run_Error by exact Hw. reflexivity.
  - unfold Header_Set, Encode, Write, WriteHeader.
    mstep run_modify. rewrite Hw. cbn [hdr wrote body newWriter].
    rewrite !run_bind, !run_modify, run_ret. wsimpl. reflexivity.
Qed.

(** ** The mux *)

Lemma mux_routes path :
  handler_for path =
    if decide (path = "/good") then goodHandler
    else if decide (path = "/bad") then badHandler
    else if decide (path = "/admin") then adminHandler
    else if decide (path = "/health") then healthHandler
    else if String.prefix "/" path then rootHandler
    else fun _ => NotFound.
Proof.
  destruct (decide (path = "/good")) as [->|Hgood]; [reflexivity|].
  destruct (decide (path = "/bad")) as [->|Hbad]; [reflexivity|].
  destruct (decide (path = "/admin")) as [->|Hadmin]; [reflexivity|].
  destruct (decide (path = "/health")) as [->|Hhealth]; [reflexivity|].
  unfold handler_for, routes, mux_handler, pattern_matches.
  change (ends_with_slash "/good") with false.
  change (ends_with_slash "/bad") with false.
  change (ends_with_slash "/admin") with false.
  change (ends_with_slash "/health") with false.
  change (ends_with_slash "/") with true.
  cbv iota.
  rewrite !bool_decide_eq_false_2 by congruence.
  destruct (String.prefix "/" path); reflexivity.
Qed.

Lemma run_ServeHTTP r e w :
  run (ServeHTTP r) e w =
  let w' := exec (handler_for (Path r) r) e (set_writer newWriter w) in
  (finish (writer w'), w').
Proof.
  unfold ServeHTTP. mstep run_modify.
  rewrite run_bind. mstep run_gets. rewrite run_ret. reflexivity.
Qed.

(** ** The clock never goes back and the start time is never written *)

Section Preserves.
Variable R : World -> World -> Prop.
Hypothesis R_refl : forall w, R w w.
Hypothesis R_trans : forall w1 w2 w3, R w1 w2 -> R w2 w3 -> R w1 w3.

Lemma preserves_ret {A} (a : A) : preserves R (mret a).
Proof. intros e w. apply R_refl. Qed.

Lemma preserves_bind {A B} (m : M A) (f : A -> M B) :
  preserves R m -> (forall a, preserves R (f a)) -> preserves R (m ≫= f).
Proof.
  intros Hm Hf e w. rewrite exec_run, run_bind.
  eapply R_trans; [apply (Hm e w) | apply Hf].
Qed.

Lemma preserves_gets {A} (f : World -> A) : preserves R (gets f).
Proof. intros e w. apply R_refl. Qed.

Lemma preserves_ask : preserves R ask_env.
Proof. intros e w. apply R_refl. Qed.

Lemma preserves_modify f : (forall w, R w (f w)) -> preserves R (modify f).
Proof. intros Hf e w. apply Hf. Qed.

Lemma preserves_for_range {A} (l : list A) (f : A -> M unit) :
  (forall x, preserves R (f x)) -> preserves R (for_range l f).
Proof.
  intros Hf. induction l as [|x l IH]; cbn [for_range].
  - apply preserves_ret.
  - apply preserves_bind; [apply Hf | intros _; exact IH].
Qed.
End Preserves.

Lemma clock_frame_refl w : clock_frame w w.
Proof. split; [lia | reflexivity]. Qed.

Lemma clock_frame_trans w1 w2 w3 :
  clock_frame w1 w2 -> clock_frame w2 w3 -> clock_frame w1 w3.
Proof. intros [H1 H2] [H3 H4]. split; [lia | congruence]. Qed.

Create HintDb frame.

(** Decompose a program along its binds and branches; the leaves are
    closed by the hints of [frame]. *)
Ltac frame :=
  repeat match goal with
  | |- preserves _ (mbind _ _) =>
      apply (preserves_bind _ clock_frame_trans); [ | intros ? ]
  | |- preserves _ (mret _) => apply (preserves_ret _ clock_frame_refl)
  | |- preserves _ (gets _) => apply (preserves_gets _ clock_frame_refl)
  | |- preserves _ ask_env => apply (preserves_ask _ clock_frame_refl)
  | |- preserves _ (for_range _ _) =>
      apply (preserves_for_range _ clock_frame_refl clock_frame_trans); intros ?
  | |- preserves _ (match ?x with _ => _ end) => destruct x
  | |- preserves _ (modify _) =>
      apply preserves_modify; intros ?; split; cbn; [lia | reflexivity]
  | |- _ => solve [auto with frame]
  end.

Lemma Printf_frame f a : preserves clock_frame (Printf f a).
Proof. unfold Printf. frame. Qed.

Lemma Intn_frame n : preserves clock_frame (Intn n).
Proof. unfold Intn. frame. Qed.

#[local] Hint Resolve Printf_frame Intn_frame : frame.

Lemma random_latency_frame span base : preserves clock_frame (random_latency span base).
Proof. unfold random_latency. frame. Qed.

Lemma Now_frame : preserves clock_frame Now.
Proof. unfold Now. frame. Qed.

Lemma Sleep_frame d : preserves clock_frame (Sleep d).
Proof. unfold Sleep. frame. Qed.

Lemma select_wait_frame ctx latency : preserves clock_frame (select_wait ctx latency).
Proof.
  intros e w. rewrite exec_run, run_select_wait. unfold wait_end. split; wsimpl.
  - apply select_case_bounds.
  - reflexivity.
Qed.

#[local] Hint Resolve random_latency_frame Now_frame Sleep_frame select_wait_frame : frame.

Lemma Since_frame t : preserves clock_frame (Since t).
Proof. unfold Since. frame. Qed.

Lemma Header_Set_frame k v : preserves clock_frame (Header_Set k v).
Proof. unfold Header_Set. frame. Qed.

Lemma Header_Del_frame k : preserves clock_frame (Header_Del k).
Proof. unfold Header_Del. frame. Qed.

Lemma WriteHeader_frame code : preserves clock_frame (WriteHeader code).
Proof.
  unfold WriteHeader. apply preserves_modify. intros w.
  destruct (wrote (writer w)); split; cbn; (lia || reflexivity).
Qed.

#[local] Hint Resolve Since_frame Header_Set_frame Header_Del_frame WriteHeader_frame : frame.

Lemma Write_frame c : preserves clock_frame (Write c).
Proof. unfold Write. frame. Qed.

#[local] Hint Resolve Write_frame : frame.

Lemma Encode_frame r : preserves clock_frame (Encode r).
Proof. unfold Encode. frame. Qed.

Lemma Error_frame msg code : preserves clock_frame (Error msg code).
Proof. unfold Error. frame. Qed.

#[local] Hint Resolve Encode_frame Error_frame : frame.

Lemma NotFound_frame : preserves clock_frame NotFound.
Proof. unfold NotFound. frame. Qed.

Lemma simulateDatabase_frame ctx op : preserves clock_frame (simulateDatabase ctx op).
Proof. unfold simulateDatabase. frame. Qed.

Lemma simulateExternalAPI_frame ctx endpoint :
  preserves clock_frame (simulateExternalAPI ctx endpoint).
Proof. unfold simulateExternalAPI. frame. Qed.

#[local] Hint Resolve NotFound_frame simulateDatabase_frame simulateExternalAPI_frame : frame.

Lemma goodHandler_frame r : preserves clock_frame (goodHandler r).
Proof. unfold goodHandler. frame. Qed.

Lemma badHandler_frame r : preserves clock_frame (badHandler r).
Proof. unfold badHandler. frame. Qed.

Lemma adminHandler_frame r : preserves clock_frame (adminHandler r).
Proof. unfold adminHandler. frame. Qed.

Lemma healthHandler_frame r : preserves clock_frame (healthHandler r).
Proof. unfold healthHandler. frame. Qed.

Lemma rootHandler_frame r : preserves clock_frame (rootHandler r).
Proof. unfold rootHandler. frame. Qed.

#[local] Hint Resolve goodHandler_frame badHandler_frame adminHandler_frame
  healthHandler_frame rootHandler_frame : frame.

Lemma handler_for_frame path r : preserves clock_frame (handler_for path r).
Proof.
  rewrite mux_routes. repeat case_decide; try solve [frame].
  destruct (String.prefix "/" path); frame.
Qed.

Lemma ServeHTTP_frame r : preserves clock_frame (ServeHTTP r).
Proof.
  intros e w. rewrite exec_run, run_ServeHTTP. cbn [snd].
  eapply clock_frame_trans; [|apply handler_for_frame].
  split; reflexivity.
Qed.

(** ** Reading the two kinds of reply *)

Lemma status_json code r : status (finish (json_writer code r)) = code.
Proof. reflexivity. Qed.

Lemma envelope_json code r : envelope (finish (json_writer code r)) = Some r.
Proof. reflexivity. Qed.

Lemma content_type_json code r :
  content_type (finish (json_writer code r)) = "application/json".
Proof. reflexivity. Qed.

Lemma status_error msg code : status (finish (error_writer msg code)) = code.
Proof. reflexivity. Qed.

Lemma envelope_error msg code : envelope (finish (error_writer msg code)) = None.
Proof. reflexivity. Qed.

Lemma content_type_error msg code :
  content_type (finish (error_writer msg code)) = "text/plain; charset=utf-8".
Proof. vm_compute. reflexivity. Qed.

Lemma eval_ServeHTTP r e w :
  eval (ServeHTTP r) e w =
  finish (writer (exec (handler_for (Path r) r) e (set_writer newWriter w))).
Proof. rewrite eval_run, run_ServeHTTP. reflexivity. Qed.

Lemma exec_ServeHTTP r e w :
  exec (ServeHTTP r) e w = exec (handler_for (Path r) r) e (set_writer newWriter w).
Proof. rewrite exec_run, run_ServeHTTP. reflexivity. Qed.

(** ** The database wait, by the clock *)

Lemma database_latency_positive e i : 0 < latency_at 90 10 e i.
Proof.
  pose proof (latency_at_bounds 90 10 e i ltac:(lia)). unfold Millisecond in *. lia.
Qed.

(** A context done before the timer fires cancels the wait. *)
Lemma database_wait_cancelled e w ctx c :
  done_at ctx = Some c -> c < mono w + latency_at 90 10 e (draws w) ->
  database_wait e w ctx = ContextDone.
Proof.
  intros Hc Hlt. unfold database_wait, wait_case.
  rewrite (select_case_before _ _ _ _ c Hc (database_latency_positive _ _) Hlt).
  reflexivity.
Qed.

(** The wait takes the done case only if the context is done by the
    instant the timer fires. *)
Lemma database_wait_done_inv e w ctx :
  database_wait e w ctx = ContextDone ->
  exists c, done_at ctx = Some c /\ c <= mono w + latency_at 90 10 e (draws w).
Proof.
  unfold database_wait, wait_case.
  destruct (select_case _ _ _ _) as [sel t] eqn:Hsel. cbn [fst]. intros ->.
  destruct (select_case_done _ _ _ _ _ Hsel) as (c & Hc & _ & Hle).
  pose proof (database_latency_positive e (draws w)).
  exists c. split; [exact Hc | lia].
Qed.

(** A context that is not done when the timer fires lets the wait finish. *)
Lemma database_wait_completed e w ctx :
  match done_at ctx with
  | None => True
  | Some c => mono w + latency_at 90 10 e (draws w) < c
  end ->
  database_wait e w ctx = TimerFired.
Proof.
  intros H. unfold database_wait, wait_case.
  pose proof (database_latency_positive e (draws w)).
  destruct (done_at ctx) as [c|] eqn:Hc.
  - rewrite (select_case_after _ _ _ _ c Hc) by lia. reflexivity.
  - rewrite select_case_never by exact Hc. reflexivity.
Qed.

(** ** The response of [/good] *)

Lemma external_wait_set_writer e w rw ctx :
  external_wait e (set_writer rw w) ctx = external_wait e w ctx.
Proof. unfold external_wait. rewrite !exec_run, !run_simulateDatabase. reflexivity. Qed.

Lemma good_response e w r :
  Path r = "/good" ->
  match database_wait e w (Ctx r) with
  | ContextDone =>
      eval (ServeHTTP r) e w
      = finish (error_writer "Database unavailable" StatusServiceUnavailable)
  | TimerFired =>
      exists t,
        eval (ServeHTTP r) e w
        = finish (json_writer StatusOK
            (good_envelope
               (fst (api_result e "https://api.example.com/status" (Ctx r)
                       (external_wait e w (Ctx r)) t))
               (wall_of e t))) /\
        (external_wait e w (Ctx r) = ContextDone ->
         {| format := "External API error: %v"; args := [AError (Err (Ctx r))] |}
           ∈ logs (exec (ServeHTTP r) e w))
  end.
Proof.
  intros Hp. rewrite eval_ServeHTTP, exec_ServeHTTP, Hp.
  change (handler_for "/good") with goodHandler.
  destruct (database_wait e w (Ctx r)) eqn:Hdb.
  - destruct (goodHandler_completed r e (set_writer newWriter w) eq_refl Hdb)
      as (_ & Hw & Hlog & _).
    rewrite external_wait_set_writer in Hw, Hlog.
    exists (mono (exec (goodHandler r) e (set_writer newWriter w))).
    split; [f_equal; exact Hw | exact Hlog].
  - destruct (goodHandler_cancelled r e (set_writer newWriter w) eq_refl Hdb) as [Hw _].
    rewrite Hw. reflexivity.
Qed.

Lemma good_users ext t :
  data_field "users" (good_envelope ext t) = Some (VUsers sample_users).
Proof. unfold data_field, good_envelope; cbn [Data]. by simplify_map_eq. Qed.

Lemma good_external_data ext t :
  data_field "external_data" (good_envelope ext t) = Some ext.
Proof. unfold data_field, good_envelope; cbn [Data]. by simplify_map_eq. Qed.

Lemma good_processed_at ext t :
  data_field "processed_at" (good_envelope ext t) = Some (VRFC3339 t).
Proof. unfold data_field, good_envelope; cbn [Data]. by simplify_map_eq. Qed.

(** * The claims *)

(** C1.  A request to [/good] whose context is done before the timer of
    the initial database wait fires (the wait starts when the handler is
    entered, at [mono w], and its timer is the first latency drawn) is
    answered with status 503 and not with 200.  Moreover the status of
    [/good] is decided by the database wait alone: it is 503 exactly when
    that wait took the done case and 200 exactly when it took the timer
    case, whatever the external call does afterwards; and a 503 is sent
    only if the context was done by the instant the timer fired. *)
Theorem good_cancelled_database_wait_503 e w r :
  Path r = "/good" ->
  let resp := eval (ServeHTTP r) e w in
  (forall c, done_at (Ctx r) = Some c ->
             c < mono w + latency_at 90 10 e (draws w) ->
             status resp = StatusServiceUnavailable /\ status resp <> StatusOK) /\
  (status resp = StatusServiceUnavailable <-> database_wait e w (Ctx r) = ContextDone) /\
  (status resp = StatusOK <-> database_wait e w (Ctx r) = TimerFired) /\
  (status resp = StatusServiceUnavailable ->
   exists c, done_at (Ctx r) = Some c /\ c <= mono w + latency_at 90 10 e (draws w)).
Proof.
  intros Hp resp. pose proof (good_response e w r Hp) as H.
  assert (Hst : status resp =
                match database_wait e w (Ctx r) with
                | TimerFired => StatusOK
                | ContextDone => StatusServiceUnavailable
                end).
  { subst resp. destruct (database_wait e w (Ctx r)).
    - destruct H as (t & -> & _). reflexivity.
    - rewrite H. reflexivity. }
  repeat split.
  - rewrite Hst, (database_wait_cancelled e w (Ctx r) c) by assumption. reflexivity.
  - rewrite Hst, (database_wait_cancelled e w (Ctx r) c) by assumption. discriminate.
  - rewrite Hst. destruct (database_wait e w (Ctx r)); [discriminate | reflexivity].
  - intros Hd. rewrite Hst, Hd. reflexivity.
  - rewrite Hst. destruct (database_wait e w (Ctx r)); [reflexivity | discriminate].
  - intros Hd. rewrite Hst, Hd. reflexivity.
  - rewrite Hst. intros Hs. apply database_wait_done_inv.
    destruct (database_wait e w (Ctx r)); [discriminate | reflexivity].
Qed.

Lemma good_cancelled_database_wait_503_witness :
  status (eval (ServeHTTP (request "GET" "/good" (cancelled_at (3 * Millisecond))))
            env0 world0) = StatusServiceUnavailable.
Proof.
  refine (proj1 (proj1 (good_cancelled_database_wait_503 env0 world0
            (request "GET" "/good" (cancelled_at (3 * Millisecond))) _)
            (3 * Millisecond) _ _)).
  - reflexivity.
  - reflexivity.
  - vm_compute. reflexivity.
Defined.

(** C2.  A request to [/good] whose initial database wait runs to its
    timer is answered with status 200 and one envelope whose [data.users]
    holds exactly three user records, with ids 1, 2, 3 and names
    "Alice Johnson", "Bob Smith", "Charlie Brown", in this order. *)
Theorem good_completed_three_users e w r :
  Path r = "/good" ->
  database_wait e w (Ctx r) = TimerFired ->
  let resp := eval (ServeHTTP r) e w in
  status resp = StatusOK /\
  exists env us,
    envelope resp = Some env /\
    data_field "users" env = Some (VUsers us) /\
    length us = 3%nat /\
    map ID us = [1; 2; 3] /\
    map Name us = ["Alice Johnson"; "Bob Smith"; "Charlie Brown"].
Proof.
  intros Hp Hdb resp. subst resp.
  pose proof (good_response e w r Hp) as H. rewrite Hdb in H.
  destruct H as (t & -> & _). split; [reflexivity|].
  eexists _, sample_users. rewrite envelope_json. split; [reflexivity|].
  rewrite good_users. repeat split.
Qed.

Lemma good_completed_three_users_witness :
  status (eval (ServeHTTP (request "GET" "/good" background)) env0 world0) = StatusOK.
Proof.
  refine (proj1 (good_completed_three_users env0 world0
            (request "GET" "/good" background) _ _)).
  - reflexivity.
  - vm_compute. reflexivity.
Defined.

(** ** The responses of [/bad] and [/admin] *)

Lemma bad_response e w r :
  Path r = "/bad" ->
  exists t,
    eval (ServeHTTP r) e w
    = finish (json_writer StatusInternalServerError (bad_envelope (wall_of e t))).
Proof.
  intros Hp. rewrite eval_ServeHTTP, Hp.
  change (handler_for "/bad") with badHandler.
  destruct (badHandler_run r e (set_writer newWriter w) eq_refl) as (_ & Hw & _).
  eexists. f_equal. exact Hw.
Qed.

Lemma admin_response e w r :
  Path r = "/admin" ->
  eval (ServeHTTP r) e w
  = finish (json_writer StatusUnauthorized
      (admin_envelope
         (wall_of e (wait_end e w (Ctx r) (latency_at 90 10 e (draws w))
                     + sleeps 15 5 e (S (draws w)))))).
Proof.
  intros Hp. rewrite eval_ServeHTTP, Hp.
  change (handler_for "/admin") with adminHandler.
  destruct (adminHandler_run r e (set_writer newWriter w) eq_refl) as (Ht & Hw & _ & _).
  rewrite Hw, Ht. reflexivity.
Qed.

Lemma bad_error_code t :
  data_field "error_code" (bad_envelope t) = Some (VString "INTERNAL_ERROR").
Proof. unfold data_field, bad_envelope; cbn [Data]. by simplify_map_eq. Qed.

Lemma admin_error_code t :
  data_field "error_code" (admin_envelope t) = Some (VString "UNAUTHORIZED").
Proof. unfold data_field, admin_envelope; cbn [Data]. by simplify_map_eq. Qed.

Lemma admin_required_role t :
  data_field "required_role" (admin_envelope t) = Some (VString "admin").
Proof. unfold data_field, admin_envelope; cbn [Data]. by simplify_map_eq. Qed.

(** C3.  Every request to [/bad] is answered with status 500 and the fixed
    error envelope (status "error", the fixed message, [data.error_code]
    "INTERNAL_ERROR"), for every random draw, every state of the request
    context and every clock: no run of the handler ends otherwise. *)
Theorem bad_always_500 e w r :
  Path r = "/bad" ->
  let resp := eval (ServeHTTP r) e w in
  status resp = StatusInternalServerError /\
  exists env,
    envelope resp = Some env /\
    Status env = "error" /\
    Message env = "Internal server error occurred" /\
    data_field "error_code" env = Some (VString "INTERNAL_ERROR").
Proof.
  intros Hp resp. subst resp.
  destruct (bad_response e w r Hp) as (t & ->).
  split; [reflexivity|].
  eexists. rewrite envelope_json. split; [reflexivity|].
  rewrite bad_error_code. repeat split.
Qed.

Lemma bad_always_500_witness :
  status (eval (ServeHTTP (request "POST" "/bad" (cancelled_at 0))) env0 world0)
  = StatusInternalServerError.
Proof.
  refine (proj1 (bad_always_500 env0 world0 (request "POST" "/bad" (cancelled_at 0)) _)).
  reflexivity.
Defined.

(** C4.  Every request to [/admin] is answered with status 401 and the
    fixed unauthorized envelope ([data.error_code] "UNAUTHORIZED",
    [data.required_role] "admin").  The handler reads the Authorization
    header and logs it, and nothing else: replacing the headers of the
    request by any others, the Authorization header absent included,
    leaves the whole response (status, headers and body) the same. *)
Theorem admin_always_401_whatever_authorization e w r :
  Path r = "/admin" ->
  let resp := eval (ServeHTTP r) e w in
  status resp = StatusUnauthorized /\
  (exists env,
     envelope resp = Some env /\
     Status env = "error" /\
     Message env = "Unauthorized access - admin privileges required" /\
     data_field "error_code" env = Some (VString "UNAUTHORIZED") /\
     data_field "required_role" env = Some (VString "admin")) /\
  (forall h, eval (ServeHTTP (with_header h r)) e w = resp) /\
  {| format := "Checking authorization token: %s";
     args := [AString (Header_Get (Header r) "Authorization")] |}
    ∈ logs (exec (ServeHTTP r) e w).
Proof.
  intros Hp resp. subst resp. rewrite (admin_response e w r Hp).
  split; [reflexivity|]. split; [|split].
  - eexists. rewrite envelope_json. split; [reflexivity|].
    rewrite admin_error_code, admin_required_role. repeat split.
  - intros h. rewrite (admin_response e w (with_header h r) Hp). reflexivity.
  - rewrite exec_ServeHTTP, Hp. change (handler_for "/admin") with adminHandler.
    apply (adminHandler_run r e (set_writer newWriter w) eq_refl).
Qed.

Lemma admin_always_401_whatever_authorization_witness :
  status (eval (ServeHTTP
            (with_header {[ "Authorization" := ["Bearer admin-token"] ]}
               (request "GET" "/admin" background))) env0 world0)
  = StatusUnauthorized.
Proof.
  refine (proj1 (admin_always_401_whatever_authorization env0 world0
            (with_header {[ "Authorization" := ["Bearer admin-token"] ]}
               (request "GET" "/admin" background)) _)).
  reflexivity.
Defined.

(** ** How long the handlers take *)

Lemma sleeps_at_least span base e i :
  (0 < span)%nat -> 0 <= base -> 3 * (base * Millisecond) <= sleeps span base e i.
Proof.
  intros Hs Hb. unfold sleeps.
  pose proof (latency_at_bounds span base e i Hs).
  pose proof (latency_at_bounds span base e (S i) Hs).
  pose proof (latency_at_bounds span base e (S (S i)) Hs).
  lia.
Qed.

Lemma external_latency_positive e i : 0 < latency_at 200 50 e i.
Proof.
  pose proof (latency_at_bounds 200 50 e i ltac:(lia)). unfold Millisecond in *. lia.
Qed.

(** A wait entered when the context is already done ends at once. *)
Lemma select_case_already_done now latency ctx tie c :
  done_at ctx = Some c -> c <= now -> 0 < latency ->
  select_case now latency ctx tie = (ContextDone, now).
Proof.
  intros Hc Hle Hl. rewrite (select_case_before _ _ _ _ c Hc Hl) by lia.
  f_equal. lia.
Qed.

Lemma bad_elapsed e w r :
  Path r = "/bad" ->
  elapsed (ServeHTTP r) e w =
  snd (select_case
         (wait_end e w (Ctx r) (latency_at 90 10 e (draws w)) + sleeps 20 5 e (S (draws w)))
         (latency_at 200 50 e (S (S (S (S (draws w))))))
         (Ctx r) (tie_timer e (S (selects w))))
  - mono w.
Proof.
  intros Hp. unfold elapsed. rewrite exec_ServeHTTP, Hp.
  change (handler_for "/bad") with badHandler.
  destruct (badHandler_run r e (set_writer newWriter w) eq_refl) as (Ht & _).
  rewrite Ht. reflexivity.
Qed.

Lemma admin_elapsed e w r :
  Path r = "/admin" ->
  elapsed (ServeHTTP r) e w =
  wait_end e w (Ctx r) (latency_at 90 10 e (draws w)) + sleeps 15 5 e (S (draws w))
  - mono w.
Proof.
  intros Hp. unfold elapsed. rewrite exec_ServeHTTP, Hp.
  change (handler_for "/admin") with adminHandler.
  destruct (adminHandler_run r e (set_writer newWriter w) eq_refl) as (Ht & _).
  rewrite Ht. reflexivity.
Qed.

(** The error lines of [/bad] and [/admin]. *)
Lemma badHandler_error_logs r e w :
  writer w = newWriter ->
  let w' := exec (badHandler r) e w in
  (database_wait e w (Ctx r) = ContextDone ->
   {| format := "Expected database error: %v"; args := [AError (Err (Ctx r))] |} ∈ logs w') /\
  (fst (select_case
          (wait_end e w (Ctx r) (latency_at 90 10 e (draws w)) + sleeps 20 5 e (S (draws w)))
          (latency_at 200 50 e (S (S (S (S (draws w))))))
          (Ctx r) (tie_timer e (S (selects w)))) = ContextDone ->
   {| format := "External API call failed as expected: %v"; args := [AError (Err (Ctx r))] |}
     ∈ logs w').
Proof.
  intros Hw w'. subst w'. rewrite exec_run. unfold badHandler.
  mstep run_Printf. mstep run_simulateDatabase.
  unfold database_wait, wait_case, wait_end; wsimpl.
  destruct (select_case (mono w) _ _ _) as [sel1 t1]; cbn [fst snd].
  destruct sel1; cbn [db_result]; log_branch.
  all: mstep run_sleep_loop.
  all: mstep run_simulateExternalAPI.
  all: unfold wait_case, wait_end; wsimpl.
  all: destruct (select_case _ _ _ _) as [sel2 t2]; cbn [fst snd].
  all: destruct sel2; cbn [api_result]; log_branch.
  all: mstep run_Now; rewrite run_json_reply_then by exact Hw.
  all: mstep run_ret; rewrite run_Printf; wsimpl.
  all: split; intros Hsel; try discriminate Hsel; set_solver.
Qed.

Lemma adminHandler_error_logs r e w :
  writer w = newWriter ->
  database_wait e w (Ctx r) = ContextDone ->
  {| format := "Auth database error: %v"; args := [AError (Err (Ctx r))] |}
    ∈ logs (exec (adminHandler r) e w).
Proof.
  intros Hw. rewrite exec_run. unfold adminHandler.
  mstep run_Printf. mstep run_Printf. mstep run_simulateDatabase.
  unfold database_wait, wait_case, wait_end; wsimpl.
  destruct (select_case (mono w) _ _ _) as [sel1 t1]; cbn [fst snd].
  destruct sel1; cbn [db_result]; log_branch.
  all: mstep run_sleep_loop.
  all: mstep run_Printf.
  all: mstep run_Now; rewrite run_json_reply_then by exact Hw.
  all: mstep run_ret; rewrite run_Printf; wsimpl.
  all: intros Hsel; try discriminate Hsel; set_solver.
Qed.

(** C5, as stated, fails.  A request to [/bad] whose context is done 3ms
    after the handler is entered: the database wait drew a latency of 10ms
    and returns after 3ms with the context's error, the external call
    (50ms drawn) returns at once, and the handler is over after 18ms, the
    3ms and its three sleeps of 5ms, instead of the 75ms it takes when the
    context stays alive.  The same request to [/admin] is over after 18ms
    instead of 25ms.  In [/good], with a context done after 20ms, the
    external call that would last 50ms ends 10ms after it started. *)
Lemma bad_waits_end_on_cancellation :
  let r := request "GET" "/bad" (cancelled_at (3 * Millisecond)) in
  let op := "SELECT * FROM non_existent_table" in
  latency_at 90 10 env0 (draws world0) = 10 * Millisecond /\
  eval (simulateDatabase (Ctx r) op) env0 world0 = Some Canceled /\
  elapsed (simulateDatabase (Ctx r) op) env0 world0 = 3 * Millisecond /\
  elapsed (simulateDatabase (Ctx r) op) env0 world0 < latency_at 90 10 env0 (draws world0) /\
  elapsed (ServeHTTP r) env0 world0 = 18 * Millisecond /\
  elapsed (ServeHTTP (request "GET" "/bad" background)) env0 world0 = 75 * Millisecond /\
  elapsed (ServeHTTP (request "GET" "/admin" (cancelled_at (3 * Millisecond)))) env0 world0
    = 18 * Millisecond /\
  elapsed (ServeHTTP (request "GET" "/admin" background)) env0 world0 = 25 * Millisecond /\
  elapsed (ServeHTTP (request "GET" "/good" (cancelled_at (20 * Millisecond)))) env0 world0
    = 20 * Millisecond /\
  elapsed (ServeHTTP (request "GET" "/good" background)) env0 world0 = 60 * Millisecond.
Proof. vm_compute. repeat split. Qed.

(** C5, amended.  In [/bad] and [/admin] the three [time.Sleep] delays run
    to completion whatever the request context does: the handler never
    takes less than their sum, which is at least 15ms.  The database wait
    and the external call are tied to the request context: entered with a
    context that is already done they take no time, so that the handler
    takes exactly the time of its sleeps, and a database wait or an
    external call whose context is done before its timer fires returns
    the context's error at that instant.  With a context that is never
    done every wait runs its full latency.  In [/bad] and [/admin] the
    error of a wait is only logged: the line for the database error is in
    the log whenever the context is done before the timer of the database
    wait fires, the line for the external call of [/bad] whenever the
    context is done before the timer of that call fires, and the response
    is the fixed one, status 500 or 401 with the fixed envelope, in which
    only the timestamp varies. *)
Theorem sleeps_run_to_completion_waits_do_not e w r :
  (Path r = "/bad" ->
   let total := elapsed (ServeHTTP r) e w in
   let naps := sleeps 20 5 e (S (draws w)) in
   15 * Millisecond <= naps <= total /\
   (forall c, done_at (Ctx r) = Some c -> c <= mono w -> total = naps) /\
   (done_at (Ctx r) = None ->
    total = latency_at 90 10 e (draws w) + naps
            + latency_at 200 50 e (S (S (S (S (draws w))))))) /\
  (Path r = "/admin" ->
   let total := elapsed (ServeHTTP r) e w in
   let naps := sleeps 15 5 e (S (draws w)) in
   15 * Millisecond <= naps <= total /\
   (forall c, done_at (Ctx r) = Some c -> c <= mono w -> total = naps) /\
   (done_at (Ctx r) = None -> total = latency_at 90 10 e (draws w) + naps)) /\
  (forall op c,
     done_at (Ctx r) = Some c -> c < mono w + latency_at 90 10 e (draws w) ->
     eval (simulateDatabase (Ctx r) op) e w = Some (Err (Ctx r)) /\
     mono (exec (simulateDatabase (Ctx r) op) e w) = Z.max (mono w) c) /\
  (forall endpoint c,
     done_at (Ctx r) = Some c -> c < mono w + latency_at 200 50 e (draws w) ->
     eval (simulateExternalAPI (Ctx r) endpoint) e w = (VNil, Some (Err (Ctx r))) /\
     mono (exec (simulateExternalAPI (Ctx r) endpoint) e w) = Z.max (mono w) c) /\
  (Path r = "/bad" ->
   (exists t, eval (ServeHTTP r) e w
              = finish (json_writer StatusInternalServerError (bad_envelope t))) /\
   (forall c, done_at (Ctx r) = Some c ->
      c < mono w + latency_at 90 10 e (draws w) ->
      {| format := "Expected database error: %v"; args := [AError (Err (Ctx r))] |}
        ∈ logs (exec (ServeHTTP r) e w)) /\
   (forall c, done_at (Ctx r) = Some c ->
      c < wait_end e w (Ctx r) (latency_at 90 10 e (draws w))
          + sleeps 20 5 e (S (draws w))
          + latency_at 200 50 e (S (S (S (S (draws w))))) ->
      {| format := "External API call failed as expected: %v";
         args := [AError (Err (Ctx r))] |}
        ∈ logs (exec (ServeHTTP r) e w))) /\
  (Path r = "/admin" ->
   (exists t, eval (ServeHTTP r) e w
              = finish (json_writer StatusUnauthorized (admin_envelope t))) /\
   (forall c, done_at (Ctx r) = Some c ->
      c < mono w + latency_at 90 10 e (draws w) ->
      {| format := "Auth database error: %v"; args := [AError (Err (Ctx r))] |}
        ∈ logs (exec (ServeHTTP r) e w))).
Proof.
  pose proof (database_latency_positive e (draws w)) as Hdb.
  pose proof (external_latency_positive e (S (S (S (S (draws w)))))) as Hext.
  split; [|split; [|split; [|split; [|split]]]].
  - intros Hp total naps. subst total. rewrite (bad_elapsed e w r Hp). fold naps.
    pose proof (sleeps_at_least 20 5 e (S (draws w)) ltac:(lia) ltac:(lia)) as Hn.
    fold naps in Hn. unfold wait_end. repeat split.
    + unfold Millisecond in *. lia.
    + pose proof (select_case_bounds (mono w) (latency_at 90 10 e (draws w)) (Ctx r)
                    (tie_timer e (selects w))).
      match goal with |- _ <= snd (select_case ?n ?l ?c ?t) - _ =>
        pose proof (select_case_bounds n l c t) end.
      lia.
    + intros c Hc Hle.
      rewrite (select_case_already_done _ _ _ _ c Hc Hle Hdb). cbn [snd].
      rewrite (select_case_already_done _ _ _ _ c Hc) by (unfold Millisecond in *; lia).
      cbn [snd]. lia.
    + intros Hnone. rewrite !select_case_never by exact Hnone. cbn [snd]. lia.
  - intros Hp total naps. subst total. rewrite (admin_elapsed e w r Hp). fold naps.
    pose proof (sleeps_at_least 15 5 e (S (draws w)) ltac:(lia) ltac:(lia)) as Hn.
    fold naps in Hn. unfold wait_end. repeat split.
    + unfold Millisecond in *. lia.
    + pose proof (select_case_bounds (mono w) (latency_at 90 10 e (draws w)) (Ctx r)
                    (tie_timer e (selects w))).
      lia.
    + intros c Hc Hle.
      rewrite (select_case_already_done _ _ _ _ c Hc Hle Hdb). cbn [snd]. lia.
    + intros Hnone. rewrite !select_case_never by exact Hnone. cbn [snd]. lia.
  - intros op c Hc Hlt. rewrite eval_run, exec_run, run_simulateDatabase. wsimpl.
    rewrite (database_wait_cancelled e w (Ctx r) c Hc Hlt).
    unfold wait_end. rewrite (select_case_before _ _ _ _ c Hc Hdb Hlt).
    split; reflexivity.
  - intros endpoint c Hc Hlt.
    rewrite eval_run, exec_run, run_simulateExternalAPI. wsimpl.
    unfold wait_case, wait_end.
    rewrite (select_case_before _ _ _ _ c Hc (external_latency_positive _ _) Hlt).
    split; reflexivity.
  - intros Hp. split; [|split].
    + destruct (bad_response e w r Hp) as (t & Ht). eauto.
    + intros c Hc Hlt. rewrite exec_ServeHTTP, Hp.
      change (handler_for "/bad") with badHandler.
      apply (proj1 (badHandler_error_logs r e (set_writer newWriter w) eq_refl)).
      apply (database_wait_cancelled e w (Ctx r) c Hc Hlt).
    + intros c Hc Hlt. rewrite exec_ServeHTTP, Hp.
      change (handler_for "/bad") with badHandler.
      apply (proj2 (badHandler_error_logs r e (set_writer newWriter w) eq_refl)).
      change (wait_end e (set_writer newWriter w)) with (wait_end e w).
      cbn [draws selects set_writer].
      rewrite (select_case_before _ _ _ _ c Hc Hext Hlt). reflexivity.
  - intros Hp. split.
    + rewrite (admin_response e w r Hp). eauto.
    + intros c Hc Hlt. rewrite exec_ServeHTTP, Hp.
      change (handler_for "/admin") with adminHandler.
      apply (adminHandler_error_logs r e (set_writer newWriter w) eq_refl).
      apply (database_wait_cancelled e w (Ctx r) c Hc Hlt).
Qed.

Lemma sleeps_run_to_completion_waits_do_not_witness :
  elapsed (ServeHTTP (request "GET" "/admin" (cancelled_at 0))) env0 world0
  = sleeps 15 5 env0 (S (draws world0)).
Proof.
  refine (proj1 (proj2 (proj1 (proj2
            (sleeps_run_to_completion_waits_do_not env0 world0
               (request "GET" "/admin" (cancelled_at 0)))) _)) 0 _ _).
  - reflexivity.
  - reflexivity.
  - vm_compute. discriminate.
Defined.

(** C6.  A request to [/good] whose database wait runs to its timer and
    whose external call is cancelled is still answered with status 200 and
    the full envelope: status "success", the three users, [processed_at],
    and [external_data] null.  The error of the external call is logged. *)
Theorem good_external_call_cancelled_200 e w r :
  Path r = "/good" ->
  database_wait e w (Ctx r) = TimerFired ->
  external_wait e w (Ctx r) = ContextDone ->
  let resp := eval (ServeHTTP r) e w in
  status resp = StatusOK /\
  (exists env,
     envelope resp = Some env /\
     Status env = "success" /\
     Message env = "Request processed successfully" /\
     data_field "users" env = Some (VUsers sample_users) /\
     data_field "external_data" env = Some VNil /\
     is_Some (data_field "processed_at" env)) /\
  {| format := "External API error: %v"; args := [AError (Err (Ctx r))] |}
    ∈ logs (exec (ServeHTTP r) e w).
Proof.
  intros Hp Hdb Hext resp. subst resp.
  pose proof (good_response e w r Hp) as H. rewrite Hdb in H.
  destruct H as (t & -> & Hlog). rewrite Hext in *. cbn [api_result fst].
  split; [reflexivity|]. split; [|exact (Hlog eq_refl)].
  eexists. rewrite envelope_json. split; [reflexivity|].
  rewrite good_users, good_external_data, good_processed_at. repeat split. eauto.
Qed.

Lemma good_external_call_cancelled_200_witness :
  status (eval (ServeHTTP (request "GET" "/good" (cancelled_at (20 * Millisecond))))
            env0 world0) = StatusOK.
Proof.
  refine (proj1 (good_external_call_cancelled_200 env0 world0
            (request "GET" "/good" (cancelled_at (20 * Millisecond))) _ _ _)).
  - reflexivity.
  - vm_compute. reflexivity.
  - vm_compute. reflexivity.
Defined.

(** ** The uptime of [/health] *)

Lemma health_uptime_field u t :
  data_field "uptime" (health_envelope u t) = Some (VDuration u).
Proof. unfold data_field, health_envelope; cbn [Data]. by simplify_map_eq. Qed.

Lemma health_response e w r :
  Path r = "/health" ->
  eval (ServeHTTP r) e w
  = finish (json_writer StatusOK
      (health_envelope (eval (Since (startTime w)) e w) (wall_of e (mono w)))).
Proof.
  intros Hp. rewrite eval_ServeHTTP, Hp.
  change (handler_for "/health") with healthHandler.
  destruct (healthHandler_run r e (set_writer newWriter w) eq_refl) as (_ & Hw).
  rewrite Hw. rewrite !eval_run, !run_Since. reflexivity.
Qed.

Lemma health_uptime e w r m0 :
  Path r = "/health" -> monotonic (startTime w) = Some m0 ->
  uptime_of (eval (ServeHTTP r) e w) = Some (mono w - m0).
Proof.
  intros Hp Hs. rewrite (health_response e w r Hp).
  unfold uptime_of. rewrite envelope_json. cbn [mbind option_bind].
  rewrite health_uptime_field, eval_run, run_Since, Hs. reflexivity.
Qed.

Lemma step_frame ev : preserves clock_frame (step ev).
Proof.
  destruct ev as [d|r]; unfold step.
  - apply (preserves_bind _ clock_frame_trans); [|intros ?; apply (preserves_ret _ clock_frame_refl)].
    apply preserves_modify. intros w. split; cbn; [lia | reflexivity].
  - apply (preserves_bind _ clock_frame_trans); [apply ServeHTTP_frame|].
    intros ?; apply (preserves_ret _ clock_frame_refl).
Qed.

Lemma serve_all_frame evs : preserves clock_frame (serve_all evs).
Proof.
  induction evs as [|ev evs IH]; cbn [serve_all].
  - apply (preserves_ret _ clock_frame_refl).
  - apply (preserves_bind _ clock_frame_trans); [apply step_frame | intros a].
    apply (preserves_bind _ clock_frame_trans); [exact IH | intros b].
    apply (preserves_ret _ clock_frame_refl).
Qed.

Lemma run_serve_all_cons ev evs e w :
  run (serve_all (ev :: evs)) e w =
  (app (eval (step ev) e w) (eval (serve_all evs) e (exec (step ev) e w)),
   exec (serve_all evs) e (exec (step ev) e w)).
Proof. cbn [serve_all]. rewrite !run_bind, run_ret. reflexivity. Qed.

Lemma serve_all_uptimes e evs : forall w m0,
  monotonic (startTime w) = Some m0 -> m0 <= mono w ->
  let served := eval (serve_all evs) e w in
  Forall health_ok served /\
  Forall (fun d => mono w - m0 <= d) (health_uptimes served) /\
  StronglySorted Z.le (health_uptimes served).
Proof.
  induction evs as [|ev evs IH]; intros w m0 Hs Hle served; subst served.
  - cbn. repeat split; constructor.
  - rewrite eval_run, run_serve_all_cons. cbn [fst].
    destruct (step_frame ev e w) as [Hmono Hstart].
    destruct (IH (exec (step ev) e w) m0) as (IH1 & IH2 & IH3);
      [congruence | lia |].
    assert (Hlow : Forall (fun d => mono w - m0 <= d)
                     (health_uptimes (eval (serve_all evs) e (exec (step ev) e w)))).
    { eapply Forall_impl; [exact IH2|]. cbn. intros d Hd. lia. }
    destruct ev as [d|r].
    + change (eval (step (Elapse d)) e w) with (@nil (Request * HTTPResponse)).
      cbn [app]. auto.
    + assert (Hev : eval (step (Serve r)) e w = [(r, eval (ServeHTTP r) e w)]).
      { rewrite eval_run. unfold step. rewrite run_bind, run_ret. reflexivity. }
      assert (Hex : exec (step (Serve r)) e w = exec (ServeHTTP r) e w).
      { rewrite exec_run. unfold step. rewrite run_bind, run_ret. reflexivity. }
      rewrite Hev. cbn [app]. rewrite Hex in *.
      unfold health_uptimes at 1 2. cbn [omap list_omap].
      fold (health_uptimes (eval (serve_all evs) e (exec (ServeHTTP r) e w))).
      destruct (decide (Path r = "/health")) as [Hp|Hp].
      * rewrite (health_uptime e w r m0 Hp Hs).
        split; [|split].
        -- constructor; [|exact IH1]. intros _. cbn [fst snd].
           rewrite (health_uptime e w r m0 Hp Hs), (health_response e w r Hp).
           split; [reflexivity|]. exists (mono w - m0). split; [reflexivity | lia].
        -- constructor; [lia | exact Hlow].
        -- constructor; [exact IH3|].
           eapply Forall_impl; [exact IH2|]. cbn. intros d Hd. lia.
      * split; [|split]; [|exact Hlow|exact IH3].
        constructor; [|exact IH1]. intros Hp'. cbn [fst] in Hp'. contradiction.
Qed.

Lemma run_serve_all_app l1 l2 e : forall w,
  run (serve_all (app l1 l2)) e w =
  (app (eval (serve_all l1) e w) (eval (serve_all l2) e (exec (serve_all l1) e w)),
   exec (serve_all l2) e (exec (serve_all l1) e w)).
Proof.
  induction l1 as [|ev l1 IH]; intros w.
  - change (serve_all []) with (mret [] : M (list (Request * HTTPResponse))).
    cbn [app]. rewrite !eval_run, !exec_run, run_ret.
    cbn [fst snd app]. destruct (run (serve_all l2) e w); reflexivity.
  - cbn [app]. rewrite run_serve_all_cons.
    rewrite (eval_run (serve_all (app l1 l2))), (exec_run (serve_all (app l1 l2))), IH.
    cbn [fst snd].
    rewrite (eval_run (serve_all (ev :: l1))), (exec_run (serve_all (ev :: l1))).
    rewrite run_serve_all_cons. cbn [fst snd].
    rewrite app_assoc. reflexivity.
Qed.

Lemma run_main evs e w :
  run (main evs) e w =
  run (serve_all evs) e
    (set_startTime {| wall := wall_of e (mono w); monotonic := Some (mono w) |} w).
Proof.
  unfold main, main_init. rewrite !run_bind, run_Now, run_modify. reflexivity.
Qed.

(** C7.  In one process lifetime ([main] takes the start time once, then
    serves requests one after the other while time passes), every request
    to [/health] is answered with status 200 and an uptime that is a
    duration of at least zero, and the uptimes of successive [/health]
    requests never decrease.  The uptime is the time elapsed on the
    monotonic clock since the start time was taken, whatever the wall
    clock does. *)
Theorem health_uptime_nonnegative_monotone e w :
  (forall evs,
     let served := eval (main evs) e w in
     Forall health_ok served /\ StronglySorted Z.le (health_uptimes served)) /\
  (forall evs r,
     Path r = "/health" ->
     exists resp,
       eval (main (app evs [Serve r])) e w = app (eval (main evs) e w) [(r, resp)] /\
       status resp = StatusOK /\
       uptime_of resp = Some (mono (exec (main evs) e w) - mono w)).
Proof.
  set (w0 := set_startTime {| wall := wall_of e (mono w); monotonic := Some (mono w) |} w).
  split.
  - intros evs served. subst served. rewrite eval_run, run_main. fold w0.
    destruct (serve_all_uptimes e evs w0 (mono w) eq_refl ltac:(reflexivity))
      as (H1 & _ & H3).
    split; assumption.
  - intros evs r Hp.
    exists (eval (ServeHTTP r) e (exec (main evs) e w)).
    rewrite !eval_run, !exec_run, !run_main. fold w0.
    rewrite run_serve_all_app. cbn [fst].
    rewrite <- !eval_run, <- !exec_run.
    assert (Hlast : forall w1, eval (serve_all [Serve r]) e w1 = [(r, eval (ServeHTTP r) e w1)]).
    { intros w1. rewrite eval_run. cbn [serve_all step].
      rewrite !run_bind, !run_ret. reflexivity. }
    rewrite Hlast. split; [reflexivity|].
    destruct (serve_all_frame evs e w0) as [_ Hstart].
    split.
    + rewrite (health_response e _ r Hp). reflexivity.
    + apply (health_uptime e _ r (mono w) Hp). rewrite Hstart. reflexivity.
Qed.

(** ** The latency of the database wait *)

Lemma database_latency_at e i :
  latency_at 90 10 e i = database_latency (rand_raw e i mod 90).
Proof. reflexivity. Qed.

Lemma outcomes_giving_one k : 10 <= k < 100 -> outcomes_giving (k * Millisecond) = 1%nat.
Proof.
  intros Hk.
  assert (Hj : exists j, (j < 90)%nat /\ k = 10 + Z.of_nat j).
  { exists (Z.to_nat (k - 10)). lia. }
  destruct Hj as (j & Hj & ->).
  do 90 (destruct j as [|j]; [vm_compute; reflexivity|]). lia.
Qed.

Lemma outcomes_giving_none d :
  (forall k, 10 <= k < 100 -> d <> k * Millisecond) -> outcomes_giving d = 0%nat.
Proof.
  intros Hd. unfold outcomes_giving.
  destruct (filter _ _) as [|n l] eqn:Hf; [reflexivity|].
  assert (Hin : n ∈ filter (fun n => database_latency n = d) (seq 0 90)).
  { rewrite Hf. left. }
  apply list_elem_of_filter in Hin. destruct Hin as [Hn Hin].
  apply elem_of_seq in Hin.
  exfalso. apply (Hd (Z.of_nat n + 10)); [lia|].
  rewrite <- Hn. reflexivity.
Qed.

Lemma select_case_tie now latency ctx tie c :
  done_at ctx = Some c -> 0 < latency -> c = now + latency ->
  snd (select_case now latency ctx tie) = now + latency.
Proof.
  intros Hc Hl ->. unfold select_case, done_time, fire_time. rewrite Hc. cbn.
  destruct (Z.ltb_spec (Z.max now (now + latency)) (now + Z.max 0 latency)); [lia|].
  destruct (Z.ltb_spec (now + Z.max 0 latency) (Z.max now (now + latency))); [lia|].
  cbn. lia.
Qed.

(** C8, as stated, fails.  A database wait whose context is done 3ms after
    it starts returns the context's error after 3ms: its duration is not
    in the range from 10ms to 100ms, and a request to [/good] is over after
    those 3ms.  Nor is 100ms ever the latency drawn. *)
Lemma database_wait_shorter_than_10ms :
  let ctx := cancelled_at (3 * Millisecond) in
  let op := "SELECT users WHERE active=true" in
  eval (simulateDatabase ctx op) env0 world0 = Some Canceled /\
  elapsed (simulateDatabase ctx op) env0 world0 = 3 * Millisecond /\
  ~ (10 * Millisecond <= elapsed (simulateDatabase ctx op) env0 world0 <= 100 * Millisecond) /\
  elapsed (ServeHTTP (request "GET" "/good" ctx)) env0 world0 = 3 * Millisecond /\
  (forall e i, latency_at 90 10 e i <> 100 * Millisecond).
Proof.
  split; [vm_compute; reflexivity|]. split; [vm_compute; reflexivity|].
  split; [vm_compute; intros [H _]; apply H; reflexivity|].
  split; [vm_compute; reflexivity|].
  intros e i. pose proof (latency_at_bounds 90 10 e i ltac:(lia)).
  unfold Millisecond in *. lia.
Qed.

(** C8, amended.  Every database wait, whichever handler starts it, sets
    a timer of [rand.Intn(90)+10] milliseconds: a whole number of
    milliseconds [d] from 10ms up to, and not including, 100ms, which it
    logs.  The wait lasts exactly [d], and returns no error, when the
    context is never done or is done after the timer fires; it lasts [d]
    also when both happen at the same instant; when the context is done
    before the timer fires the wait ends at that instant (at once if the
    context is already done), lasts less than [d] and returns the
    context's error.  The latency is uniform on the ninety whole
    millisecond values from 10ms to 99ms: each is drawn for exactly one of
    the ninety outcomes of [rand.Intn(90)], so with probability 1/90 when
    these are equally likely, and no other value is drawn for any outcome.
    The handlers of [/good], [/bad] and [/admin] each start with such a
    wait. *)
Theorem database_wait_timer_uniform_10_to_99ms :
  (forall ctx op e w,
     let d := latency_at 90 10 e (draws w) in
     let wait := simulateDatabase ctx op in
     (exists n, (n < 90)%nat /\ d = database_latency n) /\
     10 * Millisecond <= d < 100 * Millisecond /\
     db_log op d ∈ logs (exec wait e w) /\
     0 <= elapsed wait e w <= d /\
     (eval wait e w = None -> elapsed wait e w = d) /\
     (done_at ctx = None -> eval wait e w = None /\ elapsed wait e w = d) /\
     (forall c, done_at ctx = Some c ->
        (mono w + d < c -> eval wait e w = None /\ elapsed wait e w = d) /\
        (c = mono w + d -> elapsed wait e w = d) /\
        (c < mono w + d ->
         eval wait e w = Some (Err ctx) /\
         elapsed wait e w = Z.max (mono w) c - mono w /\
         elapsed wait e w < d))) /\
  (forall k, 10 <= k < 100 ->
     outcomes_giving (k * Millisecond) = 1%nat /\
     latency_probability (k * Millisecond) = QArith_base.Qmake 1 90) /\
  (forall d, (forall k, 10 <= k < 100 -> d <> k * Millisecond) ->
     outcomes_giving d = 0%nat /\ latency_probability d = QArith_base.Qmake 0 90) /\
  (forall k, 10 <= k < 100 ->
     exists n, ((n < 90)%nat /\ database_latency n = k * Millisecond) /\
               forall n', (n' < 90)%nat -> database_latency n' = k * Millisecond -> n' = n) /\
  (forall n, (n < 90)%nat ->
     latency_at 90 10 {| rand_raw := fun _ => n; tie_timer := fun _ => true;
                         wall_of := fun t => t |} 0 = database_latency n) /\
  (forall e w r,
     Path r = "/good" \/ Path r = "/bad" \/ Path r = "/admin" ->
     exists op, db_log op (latency_at 90 10 e (draws w)) ∈ logs (exec (ServeHTTP r) e w)).
Proof.
  split; [|split; [|split; [|split; [|split]]]].
  - intros ctx op e w d wait. subst d wait.
    pose proof (database_latency_positive e (draws w)) as Hpos.
    assert (Hel : elapsed (simulateDatabase ctx op) e w
                  = wait_end e w ctx (latency_at 90 10 e (draws w)) - mono w).
    { unfold elapsed. rewrite exec_run, run_simulateDatabase. reflexivity. }
    assert (Hev : eval (simulateDatabase ctx op) e w = db_result (database_wait e w ctx) ctx).
    { rewrite eval_run, run_simulateDatabase. reflexivity. }
    rewrite Hel, Hev. unfold wait_end, database_wait, wait_case.
    split; [|split; [|split; [|split; [|split; [|split]]]]].
    + exists (rand_raw e (draws w) mod 90)%nat. split.
      * apply Nat.mod_upper_bound. lia.
      * apply database_latency_at.
    + pose proof (latency_at_bounds 90 10 e (draws w) ltac:(lia)).
      unfold Millisecond in *. lia.
    + clear Hel Hev Hpos. rewrite exec_run, run_simulateDatabase. wsimpl. set_solver.
    + pose proof (select_case_bounds (mono w) (latency_at 90 10 e (draws w)) ctx
                    (tie_timer e (selects w))).
      lia.
    + destruct (select_case _ _ _ _) as [sel t] eqn:Hsel. cbn [fst snd].
      destruct sel; cbn [db_result]; [|discriminate].
      intros _. apply select_case_timer in Hsel. lia.
    + intros Hnone. rewrite select_case_never by exact Hnone. cbn [fst snd db_result].
      split; [reflexivity | lia].
    + intros c Hc. split; [|split].
      * intros Hlt. rewrite (select_case_after _ _ _ _ c Hc) by lia.
        cbn [fst snd db_result]. split; [reflexivity | lia].
      * intros Heq. rewrite (select_case_tie _ _ _ _ c Hc Hpos Heq). lia.
      * intros Hlt. rewrite (select_case_before _ _ _ _ c Hc Hpos Hlt).
        cbn [fst snd db_result]. split; [reflexivity|]. split; lia.
  - intros k Hk. unfold latency_probability.
    rewrite (outcomes_giving_one k Hk). split; reflexivity.
  - intros d Hd. unfold latency_probability.
    rewrite (outcomes_giving_none d Hd). split; reflexivity.
  - intros k Hk. exists (Z.to_nat (k - 10)).
    unfold database_latency, latency_of, Millisecond. repeat split; try lia.
  - intros n Hn. unfold latency_at, Intn_at, database_latency. cbn [rand_raw].
    rewrite Nat.mod_small by exact Hn. reflexivity.
  - intros e w r [Hp|[Hp|Hp]]; rewrite exec_ServeHTTP, Hp.
    + change (handler_for "/good") with goodHandler.
      exists "SELECT users WHERE active=true".
      destruct (database_wait e w (Ctx r)) eqn:Hdb.
      * apply (goodHandler_completed r e (set_writer newWriter w) eq_refl Hdb).
      * apply (goodHandler_cancelled r e (set_writer newWriter w) eq_refl Hdb).
    + change (handler_for "/bad") with badHandler.
      exists "SELECT * FROM non_existent_table".
      apply (badHandler_run r e (set_writer newWriter w) eq_refl).
    + change (handler_for "/admin") with adminHandler.
      exists "SELECT permissions FROM users WHERE token=?".
      apply (adminHandler_run r e (set_writer newWriter w) eq_refl).
Qed.

Lemma database_wait_timer_uniform_10_to_99ms_witness :
  eval (simulateDatabase (cancelled_at (3 * Millisecond)) "SELECT 1") env0 world0
    = Some (Err (cancelled_at (3 * Millisecond))) /\
  elapsed (simulateDatabase (cancelled_at (3 * Millisecond)) "SELECT 1") env0 world0
    = Z.max (mono world0) (3 * Millisecond) - mono world0 /\
  elapsed (simulateDatabase (cancelled_at (3 * Millisecond)) "SELECT 1") env0 world0
    < latency_at 90 10 env0 (draws world0).
Proof.
  destruct (proj1 database_wait_timer_uniform_10_to_99ms
              (cancelled_at (3 * Millisecond)) "SELECT 1" env0 world0)
    as (_ & _ & _ & _ & _ & _ & H).
  apply (H (3 * Millisecond)); [reflexivity | vm_compute; reflexivity].
Defined.

(** ** The content type *)

Lemma root_response e w r :
  Path r ≠ "/good" -> Path r ≠ "/bad" -> Path r ≠ "/admin" -> Path r ≠ "/health" ->
  eval (ServeHTTP r) e w =
    if decide (Path r = "/")
    then finish (json_writer StatusOK root_envelope)
    else finish (error_writer "404 page not found" StatusNotFound).
Proof.
  intros H1 H2 H3 H4. rewrite eval_ServeHTTP, mux_routes.
  rewrite !decide_False by assumption.
  destruct (String.prefix "/" (Path r)) eqn:Hpre.
  - rewrite (rootHandler_run r e (set_writer newWriter w) eq_refl).
    destruct (decide (Path r = "/")) as [Hp|Hp].
    + rewrite decide_False by (intros Hn; exact (Hn Hp)). reflexivity.
    + rewrite decide_True by exact Hp. reflexivity.
  - rewrite decide_False.
    + rewrite exec_run. unfold NotFound. rewrite run_Error by reflexivity. reflexivity.
    + intros Hp. rewrite Hp in Hpre. discriminate.
Qed.

(** C9, as stated, fails.  The reply to a request to [/good] whose context
    is done during the database wait, and the reply to a request for a
    path that is not registered, are written by [http.Error]: their
    content type is "text/plain; charset=utf-8", not "application/json". *)
Lemma error_replies_are_plain_text :
  let cancelled :=
    eval (ServeHTTP (request "GET" "/good" (cancelled_at (3 * Millisecond)))) env0 world0 in
  let missing := eval (ServeHTTP (request "GET" "/nowhere" background)) env0 world0 in
  (status cancelled = StatusServiceUnavailable /\
   content_type cancelled = "text/plain; charset=utf-8" /\
   content_type cancelled <> "application/json") /\
  (status missing = StatusNotFound /\
   content_type missing = "text/plain; charset=utf-8" /\
   content_type missing <> "application/json").
Proof. vm_compute. repeat split; discriminate. Qed.

Lemma json_reply_ok code env :
  code <> StatusServiceUnavailable -> code <> StatusNotFound ->
  let resp := finish (json_writer code env) in
  (content_type resp =
     if decide (status resp = StatusServiceUnavailable \/ status resp = StatusNotFound)
     then "text/plain; charset=utf-8" else "application/json") /\
  (is_Some (envelope resp) <->
     ~ (status resp = StatusServiceUnavailable \/ status resp = StatusNotFound)).
Proof.
  intros H1 H2 resp. subst resp.
  rewrite status_json, content_type_json, envelope_json.
  rewrite decide_False by (intros [H|H]; contradiction).
  split; [reflexivity|]. split; [intros _ [H|H]; contradiction | eauto].
Qed.

Lemma error_reply_ok msg code :
  code = StatusServiceUnavailable \/ code = StatusNotFound ->
  let resp := finish (error_writer msg code) in
  (content_type resp =
     if decide (status resp = StatusServiceUnavailable \/ status resp = StatusNotFound)
     then "text/plain; charset=utf-8" else "application/json") /\
  (is_Some (envelope resp) <->
     ~ (status resp = StatusServiceUnavailable \/ status resp = StatusNotFound)).
Proof.
  intros Hc resp. subst resp.
  rewrite status_error, content_type_error, envelope_error.
  rewrite decide_True by exact Hc.
  split; [reflexivity|]. split; [intros [x Hx]; discriminate | intros Hn; contradiction].
Qed.

Lemma status_codes_distinct :
  StatusOK <> StatusServiceUnavailable /\ StatusOK <> StatusNotFound /\
  StatusInternalServerError <> StatusServiceUnavailable /\
  StatusInternalServerError <> StatusNotFound /\
  StatusUnauthorized <> StatusServiceUnavailable /\
  StatusUnauthorized <> StatusNotFound /\
  StatusServiceUnavailable <> StatusNotFound.
Proof. repeat split; discriminate. Qed.

Lemma cleanPath_examples :
  cleanPath "/good" = "/good" /\ cleanPath "/" = "/" /\ cleanPath "/good/" = "/good/" /\
  cleanPath "//good" = "/good" /\ cleanPath "/./health" = "/health" /\
  cleanPath "/a/../good" = "/good" /\ cleanPath "/.." = "/" /\ cleanPath "" = "/" /\
  cleanPath "good" = "/good" /\ cleanPath "/a//" = "/a/" /\ cleanPath "//" = "/" /\
  cleanPath "/..." = "/..." /\ cleanPath "/a/b/../../../c/" = "/c/".
Proof. vm_compute. repeat split. Qed.

(** C9, amended.  Of a request whose path is clean, so that the mux hands
    it to a handler: every response that carries an envelope has content
    type "application/json": these are all responses except those with
    status 503 or 404, which [http.Error] writes with content type
    "text/plain; charset=utf-8" and without an envelope.  Status 503 is
    sent exactly for a request to [/good] whose database wait took the
    done case, and 404 exactly for a path other than the five served. *)
Theorem content_type_json_except_error_replies e w r :
  cleanPath (Path r) = Path r ->
  let resp := eval (ServeHTTP r) e w in
  (content_type resp =
     if decide (status resp = StatusServiceUnavailable \/ status resp = StatusNotFound)
     then "text/plain; charset=utf-8" else "application/json") /\
  (is_Some (envelope resp) <->
     ~ (status resp = StatusServiceUnavailable \/ status resp = StatusNotFound)) /\
  (status resp = StatusServiceUnavailable <->
     Path r = "/good" /\ database_wait e w (Ctx r) = ContextDone) /\
  (status resp = StatusNotFound <->
     Path r <> "/" /\ Path r <> "/good" /\ Path r <> "/bad" /\
     Path r <> "/admin" /\ Path r <> "/health").
Proof.
  intros _ resp. subst resp.
  destruct status_codes_distinct as (N1 & N2 & N3 & N4 & N5 & N6 & N7).
  destruct (decide (Path r = "/good")) as [Hgood|Hgood].
  { pose proof (good_response e w r Hgood) as H.
    destruct (database_wait e w (Ctx r)).
    - destruct H as (t & -> & _).
      destruct (json_reply_ok StatusOK (good_envelope
        (fst (api_result e "https://api.example.com/status" (Ctx r)
                (external_wait e w (Ctx r)) t)) (wall_of e t)) N1 N2) as [Hc He].
      split; [exact Hc|]. split; [exact He|]. rewrite status_json.
      split; split; try contradiction.
      + intros [_ Hd]. discriminate Hd.
      + intros (_ & Hg & _). contradiction.
    - rewrite H.
      destruct (error_reply_ok "Database unavailable" StatusServiceUnavailable
                  (or_introl eq_refl)) as [Hc He].
      split; [exact Hc|]. split; [exact He|]. rewrite status_error.
      split; split; try (intros; contradiction); auto.
      intros (_ & Hg & _). contradiction. }
  assert (Hjson : forall code env,
            code <> StatusServiceUnavailable -> code <> StatusNotFound ->
            (Path r = "/" \/ Path r = "/bad" \/ Path r = "/admin" \/ Path r = "/health") ->
            eval (ServeHTTP r) e w = finish (json_writer code env) ->
            (content_type (eval (ServeHTTP r) e w) =
               if decide (status (eval (ServeHTTP r) e w) = StatusServiceUnavailable
                          \/ status (eval (ServeHTTP r) e w) = StatusNotFound)
               then "text/plain; charset=utf-8" else "application/json") /\
            (is_Some (envelope (eval (ServeHTTP r) e w)) <->
               ~ (status (eval (ServeHTTP r) e w) = StatusServiceUnavailable
                  \/ status (eval (ServeHTTP r) e w) = StatusNotFound)) /\
            (status (eval (ServeHTTP r) e w) = StatusServiceUnavailable <->
               Path r = "/good" /\ database_wait e w (Ctx r) = ContextDone) /\
            (status (eval (ServeHTTP r) e w) = StatusNotFound <->
               Path r <> "/" /\ Path r <> "/good" /\ Path r <> "/bad" /\
               Path r <> "/admin" /\ Path r <> "/health")).
  { intros code env C1 C2 Hpath ->.
    destruct (json_reply_ok code env C1 C2) as [Hc He].
    split; [exact Hc|]. split; [exact He|]. rewrite status_json.
    split; split; try contradiction.
    - intros [Hg _]. contradiction.
    - intros (P1 & _ & P2 & P3 & P4). destruct Hpath as [?|[?|[?|?]]]; contradiction. }
  destruct (decide (Path r = "/bad")) as [Hbad|Hbad].
  { destruct (bad_response e w r Hbad) as (t & Hr).
    exact (Hjson _ _ N3 N4 ltac:(auto) Hr). }
  destruct (decide (Path r = "/admin")) as [Hadmin|Hadmin].
  { exact (Hjson _ _ N5 N6 ltac:(auto) (admin_response e w r Hadmin)). }
  destruct (decide (Path r = "/health")) as [Hhealth|Hhealth].
  { exact (Hjson _ _ N1 N2 ltac:(auto) (health_response e w r Hhealth)). }
  pose proof (root_response e w r Hgood Hbad Hadmin Hhealth) as Hr.
  destruct (decide (Path r = "/")) as [Hroot|Hroot].
  - exact (Hjson _ _ N1 N2 ltac:(auto) Hr).
  - rewrite Hr.
    destruct (error_reply_ok "404 page not found" StatusNotFound
                (or_intror eq_refl)) as [Hc He].
    split; [exact Hc|]. split; [exact He|]. rewrite status_error.
    split; split; auto.
    + intros Hs. symmetry in Hs. contradiction.
    + intros [Hg _]. contradiction.
Qed.

Lemma content_type_json_except_error_replies_witness :
  let resp :=
    eval (ServeHTTP (request "GET" "/good" (cancelled_at (3 * Millisecond)))) env0 world0 in
  content_type resp =
    if decide (status resp = StatusServiceUnavailable \/ status resp = StatusNotFound)
    then "text/plain; charset=utf-8" else "application/json".
Proof.
  refine (proj1 (content_type_json_except_error_replies env0 world0
            (request "GET" "/good" (cancelled_at (3 * Millisecond))) _)).
  vm_compute. reflexivity.
Defined.

(** ** The method of the request *)

Lemma handler_for_method path m r :
  handler_for path (with_method m r) = handler_for path (with_method "GET" r).
Proof.
  rewrite mux_routes. repeat case_decide; try reflexivity.
  destruct (String.prefix "/" path); reflexivity.
Qed.


(** * Further properties of the code *)

(** ** No handler reads the log, the method, the headers or the address *)

Lemma lockstep_ret {A} (a : A) : lockstep (mret a) (mret a).
Proof. intros e w1 w2 H. split; [reflexivity | exact H]. Qed.

Lemma lockstep_bind {A B} (m1 m2 : M A) (f1 f2 : A -> M B) :
  lockstep m1 m2 -> (forall a, lockstep (f1 a) (f2 a)) ->
  lockstep (m1 ≫= f1) (m2 ≫= f2).
Proof.
  intros Hm Hf e w1 w2 H. rewrite !eval_run, !exec_run, !run_bind.
  destruct (Hm e w1 w2 H) as [Hv Hw]. rewrite !eval_run in Hv. rewrite !exec_run in Hw.
  rewrite Hv. apply (Hf _ e _ _ Hw).
Qed.

Lemma lockstep_gets {A} (f : World -> A) :
  (forall w1 w2, same_but_logs w1 w2 -> f w1 = f w2) -> lockstep (gets f) (gets f).
Proof. intros Hf e w1 w2 H. split; [apply Hf, H | exact H]. Qed.

Lemma lockstep_ask : lockstep ask_env ask_env.
Proof. intros e w1 w2 H. split; [reflexivity | exact H]. Qed.

Lemma lockstep_modify f :
  (forall w1 w2, same_but_logs w1 w2 -> same_but_logs (f w1) (f w2)) ->
  lockstep (modify f) (modify f).
Proof. intros Hf e w1 w2 H. split; [reflexivity | apply Hf, H]. Qed.

Lemma lockstep_Printf f1 a1 f2 a2 : lockstep (Printf f1 a1) (Printf f2 a2).
Proof. intros e w1 w2 H. split; [reflexivity | exact H]. Qed.

Lemma lockstep_for_range {A} (l : list A) (f : A -> M unit) :
  (forall x, lockstep (f x) (f x)) -> lockstep (for_range l f) (for_range l f).
Proof.
  intros Hf. induction l as [|x l IH]; cbn [for_range].
  - apply lockstep_ret.
  - apply lockstep_bind; [apply Hf | intros _; exact IH].
Qed.

Create HintDb blind.

(** Side conditions of [lockstep_gets] and [lockstep_modify]: the function
    respects [same_but_logs]. *)

Ltac blind_field :=
  let H := fresh in
  intros ? ? H; unfold same_but_logs in *; cbn in *;
  destruct H as (? & ? & ? & ? & ?);
  repeat match goal with
         | |- context [match wrote (writer ?w) with _ => _ end] =>
             destruct (wrote (writer w)) eqn:?
         end;
  cbn in *; repeat split; congruence.

(** Decompose a program run against itself along its binds and branches. *)
Ltac blind :=
  repeat match goal with
  | |- lockstep (mbind _ _) (mbind _ _) => apply lockstep_bind; [ | intros ? ]
  | |- lockstep (mret _) (mret _) => apply lockstep_ret
  | |- lockstep (Printf _ _) (Printf _ _) => apply lockstep_Printf
  | |- lockstep (gets _) (gets _) => apply lockstep_gets; blind_field
  | |- lockstep ask_env ask_env => apply lockstep_ask
  | |- lockstep (for_range _ _) (for_range _ _) => apply lockstep_for_range; intros ?
  | |- lockstep (match ?x with _ => _ end) (match ?x with _ => _ end) => destruct x
  | |- lockstep (modify _) (modify _) => apply lockstep_modify; blind_field
  | |- _ => solve [auto with blind]
  end.

Lemma Intn_blind n : lockstep (Intn n) (Intn n).
Proof. unfold Intn. blind. Qed.
#[local] Hint Resolve Intn_blind : blind.
Lemma random_latency_blind span base : lockstep (random_latency span base) (random_latency span base).
Proof. unfold random_latency. blind. Qed.
Lemma Now_blind : lockstep Now Now.
Proof. unfold Now. blind. Qed.
Lemma Sleep_blind d : lockstep (Sleep d) (Sleep d).
Proof. unfold Sleep. blind. Qed.
Lemma select_wait_blind ctx latency : lockstep (select_wait ctx latency) (select_wait ctx latency).
Proof. unfold select_wait. blind. Qed.
#[local] Hint Resolve random_latency_blind Now_blind Sleep_blind select_wait_blind : blind.
Lemma Since_blind t : lockstep (Since t) (Since t).
Proof. unfold Since. blind. Qed.
Lemma Header_Set_blind k v : lockstep (Header_Set k v) (Header_Set k v).
Proof. unfold Header_Set. blind. Qed.
Lemma Header_Del_blind k : lockstep (Header_Del k) (Header_Del k).
Proof. unfold Header_Del. blind. Qed.
Lemma WriteHeader_blind code : lockstep (WriteHeader code) (WriteHeader code).
Proof.
  unfold WriteHeader. apply lockstep_modify. intros w1 w2 H.
  destruct H as (H1 & H2 & H3 & H4 & H5). rewrite H4.
  destruct (wrote (writer w2)); unfold same_but_logs; cbn; rewrite ?H4; repeat split; congruence.
Qed.
#[local] Hint Resolve Since_blind Header_Set_blind Header_Del_blind WriteHeader_blind : blind.
Lemma Write_blind c : lockstep (Write c) (Write c).
Proof. unfold Write. blind. Qed.
#[local] Hint Resolve Write_blind : blind.
Lemma Encode_blind r : lockstep (Encode r) (Encode r).
Proof. unfold Encode. blind. Qed.
Lemma Error_blind msg code : lockstep (Error msg code) (Error msg code).
Proof. unfold Error. blind. Qed.
#[local] Hint Resolve Encode_blind Error_blind : blind.
Lemma NotFound_blind : lockstep NotFound NotFound.
Proof. unfold NotFound. blind. Qed.
Lemma simulateDatabase_blind ctx op : lockstep (simulateDatabase ctx op) (simulateDatabase ctx op).
Proof. unfold simulateDatabase. blind. Qed.
Lemma simulateExternalAPI_blind ctx ep :
  lockstep (simulateExternalAPI ctx ep) (simulateExternalAPI ctx ep).
Proof. unfold simulateExternalAPI. blind. Qed.
#[local] Hint Resolve NotFound_blind simulateDatabase_blind simulateExternalAPI_blind : blind.

Lemma goodHandler_lockstep r1 r2 :
  Ctx r1 = Ctx r2 -> lockstep (goodHandler r1) (goodHandler r2).
Proof. intros H. unfold goodHandler. rewrite H. blind. Qed.

Lemma badHandler_lockstep r1 r2 :
  Ctx r1 = Ctx r2 -> lockstep (badHandler r1) (badHandler r2).
Proof. intros H. unfold badHandler. rewrite H. blind. Qed.

Lemma adminHandler_lockstep r1 r2 :
  Ctx r1 = Ctx r2 -> lockstep (adminHandler r1) (adminHandler r2).
Proof. intros H. unfold adminHandler. rewrite H. blind. Qed.

Lemma healthHandler_lockstep r1 r2 : lockstep (healthHandler r1) (healthHandler r2).
Proof. unfold healthHandler. blind. Qed.

Lemma rootHandler_lockstep r1 r2 :
  Path r1 = Path r2 -> lockstep (rootHandler r1) (rootHandler r2).
Proof. intros H. unfold rootHandler. rewrite H. blind. Qed.

Lemma handler_for_lockstep path r1 r2 :
  Path r1 = Path r2 -> Ctx r1 = Ctx r2 ->
  lockstep (handler_for path r1) (handler_for path r2).
Proof.
  intros Hp Hc. rewrite mux_routes. repeat case_decide.
  - by apply goodHandler_lockstep.
  - by apply badHandler_lockstep.
  - by apply adminHandler_lockstep.
  - apply healthHandler_lockstep.
  - destruct (String.prefix "/" path); [by apply rootHandler_lockstep | apply NotFound_blind].
Qed.



(** ** What a request costs: time and random values *)

Lemma goodHandler_cancelled_counters r e w :
  writer w = newWriter ->
  database_wait e w (Ctx r) = ContextDone ->
  let w' := exec (goodHandler r) e w in
  mono w' = wait_end e w (Ctx r) (latency_at 90 10 e (draws w)) /\
  draws w' = S (draws w) /\ selects w' = S (selects w).
Proof.
  intros Hw Hdb w'. subst w'. rewrite exec_run. unfold goodHandler.
  mstep run_Printf. mstep run_simulateDatabase.
  change (database_wait e (add_log _ w) (Ctx r)) with (database_wait e w (Ctx r)).
  rewrite Hdb. cbn [db_result].
  mstep run_Printf.
  rewrite run_Error by exact Hw. wsimpl. repeat split.
Qed.

Lemma goodHandler_completed_counters r e w :
  writer w = newWriter ->
  database_wait e w (Ctx r) = TimerFired ->
  let w' := exec (goodHandler r) e w in
  mono w' = snd (select_case (mono w + latency_at 90 10 e (draws w))
                   (latency_at 200 50 e (S (draws w)))
                   (Ctx r) (tie_timer e (S (selects w)))) /\
  draws w' = S (S (draws w)) /\ selects w' = S (S (selects w)).
Proof.
  intros Hw Hdb w'. subst w'. rewrite exec_run. unfold goodHandler.
  mstep run_Printf. mstep run_simulateDatabase.
  change (database_wait e (add_log _ w) (Ctx r)) with (database_wait e w (Ctx r)).
  rewrite Hdb. cbn [db_result].
  mstep run_simulateExternalAPI.
  unfold wait_case, wait_end; wsimpl.
  assert (Ht : snd (select_case (mono w) (latency_at 90 10 e (draws w)) (Ctx r)
                      (tie_timer e (selects w)))
               = mono w + latency_at 90 10 e (draws w)).
  { unfold database_wait, wait_case in Hdb.
    destruct (select_case (mono w) _ _ _) as [sel t] eqn:Hsel. cbn [fst snd] in *.
    subst sel. apply select_case_timer in Hsel.
    pose proof (database_latency_positive e (draws w)). lia. }
  rewrite Ht. clear Ht.
  destruct (select_case (mono w + _) _ _ _) as [sel t]; cbn [fst snd].
  destruct sel; cbn [api_result]; log_branch.
  all: mstep run_Now; rewrite run_json_reply_then by exact Hw.
  all: mstep run_ret; rewrite run_Printf; wsimpl; repeat split.
Qed.

Lemma badHandler_counters r e w :
  writer w = newWriter ->
  let w' := exec (badHandler r) e w in
  draws w' = S (S (S (S (S (draws w))))) /\ selects w' = S (S (selects w)).
Proof.
  intros Hw w'. subst w'. rewrite exec_run. unfold badHandler.
  mstep run_Printf. mstep run_simulateDatabase.
  destruct (database_wait _ _ _); cbn [db_result]; log_branch.
  all: mstep run_sleep_loop.
  all: mstep run_simulateExternalAPI.
  all: destruct (wait_case _ _ _ _); cbn [api_result]; log_branch.
  all: mstep run_Now; rewrite run_json_reply_then by exact Hw.
  all: mstep run_ret; rewrite run_Printf; wsimpl.
  all: repeat split.
Qed.

Lemma adminHandler_counters r e w :
  writer w = newWriter ->
  let w' := exec (adminHandler r) e w in
  draws w' = S (S (S (S (draws w)))) /\ selects w' = S (selects w).
Proof.
  intros Hw w'. subst w'. rewrite exec_run. unfold adminHandler.
  mstep run_Printf. mstep run_Printf. mstep run_simulateDatabase.
  destruct (database_wait _ _ _); cbn [db_result]; log_branch.
  all: mstep run_sleep_loop.
  all: mstep run_Printf.
  all: mstep run_Now; rewrite run_json_reply_then by exact Hw.
  all: mstep run_ret; rewrite run_Printf; wsimpl.
  all: repeat split.
Qed.

Lemma healthHandler_counters r e w :
  writer w = newWriter ->
  let w' := exec (healthHandler r) e w in
  draws w' = draws w /\ selects w' = selects w.
Proof.
  intros Hw w'. subst w'. rewrite exec_run. unfold healthHandler.
  mstep run_Printf. mstep run_gets. mstep run_Since. mstep run_Now.
  rewrite run_json_reply_then by exact Hw. rewrite run_ret. wsimpl.
  repeat split.
Qed.

Lemma rootHandler_counters r e w :
  writer w = newWriter ->
  let w' := exec (rootHandler r) e w in
  mono w' = mono w /\ draws w' = draws w /\ selects w' = selects w.
Proof.
  intros Hw w'. subst w'. rewrite exec_run. unfold rootHandler.
  destruct (decide (Path r ≠ "/")).
  - unfold NotFound. rewrite run_Error by exact Hw. repeat split.
  - unfold Header_Set, Encode, Write, WriteHeader.
    mstep run_modify. rewrite Hw. cbn [hdr wrote body newWriter].
    rewrite !run_bind, !run_modify, run_ret. wsimpl. repeat split.
Qed.

Lemma other_path_counters e w r :
  Path r ≠ "/good" -> Path r ≠ "/bad" -> Path r ≠ "/admin" -> Path r ≠ "/health" ->
  let w' := exec (ServeHTTP r) e w in
  mono w' = mono w /\ draws w' = draws w /\ selects w' = selects w.
Proof.
  intros H1 H2 H3 H4 w'. subst w'. rewrite exec_ServeHTTP, mux_routes.
  rewrite !decide_False by assumption.
  destruct (String.prefix "/" (Path r)).
  - apply (rootHandler_counters r e (set_writer newWriter w) eq_refl).
  - rewrite exec_run. unfold NotFound. rewrite run_Error by reflexivity. repeat split.
Qed.

Lemma latency_at_le span base e i :
  (0 < span)%nat -> latency_at span base e i <= (Z.of_nat span + base - 1) * Millisecond.
Proof.
  intros Hs. unfold latency_at, latency_of, Intn_at, Millisecond.
  pose proof (Nat.mod_upper_bound (rand_raw e i) span ltac:(lia)). lia.
Qed.

Lemma sleeps_at_most span base e i :
  (0 < span)%nat -> 0 <= base ->
  sleeps span base e i <= 3 * ((Z.of_nat span + base - 1) * Millisecond).
Proof.
  intros Hs Hb. unfold sleeps.
  pose proof (latency_at_le span base e i Hs).
  pose proof (latency_at_le span base e (S i) Hs).
  pose proof (latency_at_le span base e (S (S i)) Hs).
  pose proof (latency_at_bounds span base e i Hs).
  pose proof (latency_at_bounds span base e (S i) Hs).
  pose proof (latency_at_bounds span base e (S (S i)) Hs).
  unfold Millisecond in *. lia.
Qed.

Lemma good_counters e w r :
  Path r = "/good" ->
  let w' := exec (ServeHTTP r) e w in
  match database_wait e w (Ctx r) with
  | ContextDone =>
      mono w' = wait_end e w (Ctx r) (latency_at 90 10 e (draws w)) /\
      draws w' = S (draws w) /\ selects w' = S (selects w)
  | TimerFired =>
      mono w' = snd (select_case (mono w + latency_at 90 10 e (draws w))
                       (latency_at 200 50 e (S (draws w)))
                       (Ctx r) (tie_timer e (S (selects w)))) /\
      draws w' = S (S (draws w)) /\ selects w' = S (S (selects w))
  end.
Proof.
  intros Hp w'. subst w'. rewrite exec_ServeHTTP, Hp.
  change (handler_for "/good") with goodHandler.
  destruct (database_wait e w (Ctx r)) eqn:Hdb.
  - apply (goodHandler_completed_counters r e (set_writer newWriter w) eq_refl Hdb).
  - apply (goodHandler_cancelled_counters r e (set_writer newWriter w) eq_refl Hdb).
Qed.

(** X2.  The number of random values a request consumes is fixed by its
    path and, for [/good], by the outcome of the database wait: [/good]
    draws one value when the database wait is cancelled and two otherwise,
    [/bad] always five, [/admin] always four, and every other request
    ([/health], [/], unknown paths) none.  No request gives a value back. *)
Theorem random_values_per_request e w r :
  let used := (draws (exec (ServeHTTP r) e w) - draws w)%nat in
  (draws w <= draws (exec (ServeHTTP r) e w))%nat /\
  (Path r = "/good" ->
   used = match database_wait e w (Ctx r) with
          | ContextDone => 1%nat
          | TimerFired => 2%nat
          end) /\
  (Path r = "/bad" -> used = 5%nat) /\
  (Path r = "/admin" -> used = 4%nat) /\
  (Path r <> "/good" -> Path r <> "/bad" -> Path r <> "/admin" -> used = 0%nat).
Proof.
  intros used. subst used.
  assert (Hbad : Path r = "/bad" ->
            draws (exec (ServeHTTP r) e w) = S (S (S (S (S (draws w)))))).
  { intros Hp. rewrite exec_ServeHTTP, Hp. change (handler_for "/bad") with badHandler.
    apply (badHandler_counters r e (set_writer newWriter w) eq_refl). }
  assert (Hadmin : Path r = "/admin" ->
            draws (exec (ServeHTTP r) e w) = S (S (S (S (draws w))))).
  { intros Hp. rewrite exec_ServeHTTP, Hp. change (handler_for "/admin") with adminHandler.
    apply (adminHandler_counters r e (set_writer newWriter w) eq_refl). }
  assert (Hhealth : Path r = "/health" -> draws (exec (ServeHTTP r) e w) = draws w).
  { intros Hp. rewrite exec_ServeHTTP, Hp. change (handler_for "/health") with healthHandler.
    apply (healthHandler_counters r e (set_writer newWriter w) eq_refl). }
  assert (Hgood : Path r = "/good" ->
            draws (exec (ServeHTTP r) e w) =
            match database_wait e w (Ctx r) with
            | ContextDone => S (draws w)
            | TimerFired => S (S (draws w))
            end).
  { intros Hp. pose proof (good_counters e w r Hp) as H.
    destruct (database_wait e w (Ctx r)); apply H. }
  assert (Hother : Path r <> "/good" -> Path r <> "/bad" -> Path r <> "/admin" ->
            draws (exec (ServeHTTP r) e w) = draws w).
  { intros H1 H2 H3. destruct (decide (Path r = "/health")) as [Hh|Hh]; [auto|].
    apply (other_path_counters e w r H1 H2 H3 Hh). }
  split; [|split; [|split; [|split]]].
  - destruct (decide (Path r = "/good")) as [Hg|Hg].
    { rewrite (Hgood Hg). destruct (database_wait e w (Ctx r)); lia. }
    destruct (decide (Path r = "/bad")) as [Hb|Hb]; [rewrite (Hbad Hb); lia|].
    destruct (decide (Path r = "/admin")) as [Ha|Ha]; [rewrite (Hadmin Ha); lia|].
    rewrite (Hother Hg Hb Ha). lia.
  - intros Hp. rewrite (Hgood Hp). destruct (database_wait e w (Ctx r)); lia.
  - intros Hp. rewrite (Hbad Hp). lia.
  - intros Hp. rewrite (Hadmin Hp). lia.
  - intros H1 H2 H3. rewrite (Hother H1 H2 H3). lia.
Qed.

Lemma good_elapsed_le e w r :
  Path r = "/good" ->
  0 <= elapsed (ServeHTTP r) e w
    <= latency_at 90 10 e (draws w) + latency_at 200 50 e (S (draws w)).
Proof.
  intros Hp. unfold elapsed. pose proof (good_counters e w r Hp) as H.
  pose proof (database_latency_positive e (draws w)).
  pose proof (external_latency_positive e (S (draws w))).
  destruct (database_wait e w (Ctx r)); destruct H as (-> & _).
  - match goal with |- context [select_case ?n ?l ?c ?t] =>
      pose proof (select_case_bounds n l c t) end. lia.
  - unfold wait_end.
    match goal with |- context [select_case ?n ?l ?c ?t] =>
      pose proof (select_case_bounds n l c t) end. lia.
Qed.

(** X3.  How long a request takes, whatever the random source, the
    context and the clock: never more than 420ms; [/good] at most 348ms;
    [/admin] between 15ms and 156ms; [/bad] at least 15ms; [/health], [/]
    and unknown paths no time at all.  With a context that is never done
    [/good] takes at least 60ms, [/bad] at least 75ms and [/admin] at
    least 25ms. *)
Theorem request_time_bounds e w r :
  let total := elapsed (ServeHTTP r) e w in
  0 <= total <= 420 * Millisecond /\
  (Path r = "/good" -> total <= 348 * Millisecond) /\
  (Path r = "/admin" -> 15 * Millisecond <= total <= 156 * Millisecond) /\
  (Path r = "/bad" -> 15 * Millisecond <= total) /\
  (Path r <> "/good" -> Path r <> "/bad" -> Path r <> "/admin" -> total = 0) /\
  (done_at (Ctx r) = None ->
   (Path r = "/good" -> 60 * Millisecond <= total) /\
   (Path r = "/bad" -> 75 * Millisecond <= total) /\
   (Path r = "/admin" -> 25 * Millisecond <= total)).
Proof.
  intros total. subst total.
  pose proof (latency_at_le 90 10 e (draws w) ltac:(lia)) as Ldb.
  pose proof (latency_at_bounds 90 10 e (draws w) ltac:(lia)) as Bdb.
  pose proof (latency_at_le 200 50 e (S (draws w)) ltac:(lia)) as Lext.
  pose proof (latency_at_bounds 200 50 e (S (draws w)) ltac:(lia)) as Bext.
  pose proof (latency_at_le 200 50 e (S (S (S (S (draws w))))) ltac:(lia)) as Lext'.
  pose proof (latency_at_bounds 200 50 e (S (S (S (S (draws w))))) ltac:(lia)) as Bext'.
  pose proof (sleeps_at_most 20 5 e (S (draws w)) ltac:(lia) ltac:(lia)) as Sbad.
  pose proof (sleeps_at_least 20 5 e (S (draws w)) ltac:(lia) ltac:(lia)) as Sbad'.
  pose proof (sleeps_at_most 15 5 e (S (draws w)) ltac:(lia) ltac:(lia)) as Sadm.
  pose proof (sleeps_at_least 15 5 e (S (draws w)) ltac:(lia) ltac:(lia)) as Sadm'.
  pose proof (select_case_bounds (mono w) (latency_at 90 10 e (draws w)) (Ctx r)
                (tie_timer e (selects w))) as Wdb.
  assert (Hgood : Path r = "/good" -> 0 <= elapsed (ServeHTTP r) e w <= 348 * Millisecond).
  { intros Hp. pose proof (good_elapsed_le e w r Hp). unfold Millisecond in *. lia. }
  assert (Hbad : Path r = "/bad" ->
            15 * Millisecond <= elapsed (ServeHTTP r) e w <= 420 * Millisecond).
  { intros Hp. rewrite (bad_elapsed e w r Hp). unfold wait_end.
    match goal with |- context [select_case (?a + ?b) ?l ?c ?t] =>
      pose proof (select_case_bounds (a + b) l c t) end.
    unfold Millisecond in *. lia. }
  assert (Hadmin : Path r = "/admin" ->
            15 * Millisecond <= elapsed (ServeHTTP r) e w <= 156 * Millisecond).
  { intros Hp. rewrite (admin_elapsed e w r Hp). unfold wait_end.
    unfold Millisecond in *. lia. }
  assert (Hother : Path r <> "/good" -> Path r <> "/bad" -> Path r <> "/admin" ->
            elapsed (ServeHTTP r) e w = 0).
  { intros H1 H2 H3. unfold elapsed.
    destruct (decide (Path r = "/health")) as [Hh|Hh].
    - rewrite exec_ServeHTTP, Hh. change (handler_for "/health") with healthHandler.
      destruct (healthHandler_run r e (set_writer newWriter w) eq_refl) as (-> & _).
      cbn. lia.
    - destruct (other_path_counters e w r H1 H2 H3 Hh) as (-> & _). lia. }
  split; [|split; [|split; [|split; [|split]]]].
  - destruct (decide (Path r = "/good")) as [Hg|Hg]; [specialize (Hgood Hg); unfold Millisecond in *; lia|].
    destruct (decide (Path r = "/bad")) as [Hb|Hb]; [specialize (Hbad Hb); unfold Millisecond in *; lia|].
    destruct (decide (Path r = "/admin")) as [Ha|Ha]; [specialize (Hadmin Ha); unfold Millisecond in *; lia|].
    rewrite (Hother Hg Hb Ha). unfold Millisecond. lia.
  - intros Hp. apply (Hgood Hp).
  - exact Hadmin.
  - intros Hp. apply (Hbad Hp).
  - exact Hother.
  - intros Hnone. split; [|split]; intros Hp.
    + unfold elapsed. pose proof (good_counters e w r Hp) as H.
      rewrite (database_wait_completed e w (Ctx r)) in H by (rewrite Hnone; exact I).
      destruct H as (-> & _). rewrite select_case_never by exact Hnone. cbn [snd].
      unfold Millisecond in *. lia.
    + rewrite (bad_elapsed e w r Hp). unfold wait_end.
      rewrite !select_case_never by exact Hnone. cbn [snd]. unfold Millisecond in *. lia.
    + rewrite (admin_elapsed e w r Hp). unfold wait_end.
      rewrite !select_case_never by exact Hnone. cbn [snd]. unfold Millisecond in *. lia.
Qed.

(** ** Every response, by cases *)

Lemma reply_cases e w r : reply_case e w r (eval (ServeHTTP r) e w).
Proof.
  destruct (decide (Path r = "/good")) as [Hgood|Hgood].
  { pose proof (good_response e w r Hgood) as H.
    destruct (database_wait e w (Ctx r)) eqn:Hdb.
    - destruct H as (t & H & _). eapply reply_good; eauto.
    - eapply reply_unavailable; eauto. }
  destruct (decide (Path r = "/bad")) as [Hbad|Hbad].
  { destruct (bad_response e w r Hbad) as (t & H). eapply reply_bad; eauto. }
  destruct (decide (Path r = "/admin")) as [Hadmin|Hadmin].
  { eapply reply_admin; [exact Hadmin | apply (admin_response e w r Hadmin)]. }
  destruct (decide (Path r = "/health")) as [Hhealth|Hhealth].
  { eapply reply_health; [exact Hhealth | apply (health_response e w r Hhealth)]. }
  pose proof (root_response e w r Hgood Hbad Hadmin Hhealth) as H.
  destruct (decide (Path r = "/")) as [Hroot|Hroot].
  - eapply reply_root; eauto.
  - eapply reply_not_found; eauto.
Qed.

Lemma good_keys ext t :
  data_keys (good_envelope ext t) = {[ "users"; "external_data"; "processed_at" ]}.
Proof. unfold data_keys, good_envelope; cbn [Data]. rewrite !dom_insert_L, dom_singleton_L. set_solver. Qed.

Lemma bad_keys t : data_keys (bad_envelope t) = {[ "error_code"; "timestamp" ]}.
Proof. unfold data_keys, bad_envelope; cbn [Data]. rewrite !dom_insert_L, dom_singleton_L. set_solver. Qed.

Lemma admin_keys t :
  data_keys (admin_envelope t) = {[ "error_code"; "required_role"; "timestamp" ]}.
Proof. unfold data_keys, admin_envelope; cbn [Data]. rewrite !dom_insert_L, dom_singleton_L. set_solver. Qed.

Lemma health_keys u t : data_keys (health_envelope u t) = {[ "uptime"; "timestamp" ]}.
Proof. unfold data_keys, health_envelope; cbn [Data]. rewrite !dom_insert_L, dom_singleton_L. set_solver. Qed.

Lemma root_keys : data_keys root_envelope = {[ "endpoints"; "version" ]}.
Proof. unfold data_keys, root_envelope; cbn [Data]. rewrite !dom_insert_L, dom_singleton_L. set_solver. Qed.

(** X4.  The [data] object of every envelope has exactly the keys of its
    endpoint: [users], [external_data], [processed_at] for [/good];
    [error_code], [timestamp] for [/bad]; [error_code], [required_role],
    [timestamp] for [/admin]; [uptime], [timestamp] for [/health];
    [endpoints], [version] for [/].  In particular [external_data] is
    present also when it is null. *)
Theorem envelope_data_keys e w r env :
  envelope (eval (ServeHTTP r) e w) = Some env ->
  data_keys env =
    if decide (Path r = "/good") then {[ "users"; "external_data"; "processed_at" ]}
    else if decide (Path r = "/bad") then {[ "error_code"; "timestamp" ]}
    else if decide (Path r = "/admin") then {[ "error_code"; "required_role"; "timestamp" ]}
    else if decide (Path r = "/health") then {[ "uptime"; "timestamp" ]}
    else {[ "endpoints"; "version" ]}.
Proof.
  intros Henv.
  destruct (reply_cases e w r) as [ext t Hp _ H|Hp _ H|t Hp H|t Hp H|u t Hp H|Hp H|H0 H1 H2 H3 H4 H];
    rewrite H in Henv; rewrite ?envelope_json, ?envelope_error in Henv;
    try discriminate Henv; injection Henv as <-; rewrite Hp.
  - rewrite decide_True by reflexivity. apply good_keys.
  - rewrite decide_False by discriminate. rewrite decide_True by reflexivity. apply bad_keys.
  - rewrite !(decide_False (P := "/admin" = "/good")), !(decide_False (P := "/admin" = "/bad")) by discriminate.
    rewrite decide_True by reflexivity. apply admin_keys.
  - rewrite !(decide_False (P := "/health" = "/good")), !(decide_False (P := "/health" = "/bad")),
      !(decide_False (P := "/health" = "/admin")) by discriminate.
    rewrite decide_True by reflexivity. apply health_keys.
  - rewrite !decide_False by discriminate. apply root_keys.
Qed.

Lemma envelope_data_keys_witness :
  data_keys (bad_envelope (75 * Millisecond)) = {[ "error_code"; "timestamp" ]}.
Proof.
  refine (envelope_data_keys env0 world0 (request "GET" "/bad" background)
            (bad_envelope (75 * Millisecond)) _).
  vm_compute. reflexivity.
Defined.

(** X5.  Of a request whose path is clean, so that the mux hands it to a
    handler: the handler writes exactly one value to the body.  When it is an
    envelope, its status word is "success", "error" or "healthy"; it is
    "error" exactly when the HTTP status is 400 or more and "healthy"
    exactly for [/health]; its message is not empty and its [data] is a
    non-empty object, so the [omitempty] of the field never drops it.
    Otherwise the response is one of the two plain text replies: status
    503 with the line "Database unavailable" or status 404 with the line
    "404 page not found", sent with [X-Content-Type-Options: nosniff]. *)
Theorem envelope_agrees_with_status e w r :
  cleanPath (Path r) = Path r ->
  let resp := eval (ServeHTTP r) e w in
  match envelope resp with
  | Some env =>
      sent resp = [ChunkJSON env] /\
      (Status env = "success" \/ Status env = "error" \/ Status env = "healthy") /\
      (Status env = "error" <-> 400 <= status resp) /\
      (Status env = "healthy" <-> Path r = "/health") /\
      Message env <> "" /\
      (exists m, Data env = VMap m /\ m <> ∅)
  | None =>
      (status resp = StatusServiceUnavailable /\ sent resp = [ChunkText "Database unavailable"]
       \/ status resp = StatusNotFound /\ sent resp = [ChunkText "404 page not found"]) /\
      Header_Get (headers resp) "X-Content-Type-Options" = "nosniff"
  end.
Proof.
  intros _ resp. subst resp.
  destruct (reply_cases e w r) as [ext t Hp _ H|Hp _ H|t Hp H|t Hp H|u t Hp H|Hp H|H0 H1 H2 H3 H4 H];
    rewrite H; rewrite ?envelope_json, ?envelope_error, ?status_json, ?status_error.
  - split; [reflexivity|]. split; [auto|]. split; [split; [discriminate | intros Hs; vm_compute in Hs; congruence]|].
    split; [split; [discriminate | rewrite Hp; discriminate]|].
    split; [discriminate|]. eexists. split; [reflexivity|].
    intros Hm. apply (f_equal (fun m => m !! "users")) in Hm.
    rewrite lookup_insert_eq, lookup_empty in Hm. discriminate.
  - split; [|vm_compute; reflexivity]. left. split; reflexivity.
  - split; [reflexivity|]. split; [auto|]. split; [split; [intros _; vm_compute; congruence | reflexivity]|].
    split; [split; [discriminate | rewrite Hp; discriminate]|].
    split; [discriminate|]. eexists. split; [reflexivity|].
    intros Hm. apply (f_equal (fun m => m !! "error_code")) in Hm.
    rewrite lookup_insert_eq, lookup_empty in Hm. discriminate.
  - split; [reflexivity|]. split; [auto|]. split; [split; [intros _; vm_compute; congruence | reflexivity]|].
    split; [split; [discriminate | rewrite Hp; discriminate]|].
    split; [discriminate|]. eexists. split; [reflexivity|].
    intros Hm. apply (f_equal (fun m => m !! "error_code")) in Hm.
    rewrite lookup_insert_eq, lookup_empty in Hm. discriminate.
  - split; [reflexivity|]. split; [auto|]. split; [split; [discriminate | intros Hs; vm_compute in Hs; congruence]|].
    split; [split; [intros _; exact Hp | reflexivity]|].
    split; [discriminate|]. eexists. split; [reflexivity|].
    intros Hm. apply (f_equal (fun m => m !! "uptime")) in Hm.
    rewrite lookup_insert_eq, lookup_empty in Hm. discriminate.
  - split; [reflexivity|]. split; [auto|]. split; [split; [discriminate | intros Hs; vm_compute in Hs; congruence]|].
    split; [split; [discriminate | rewrite Hp; discriminate]|].
    split; [discriminate|]. eexists. split; [reflexivity|].
    intros Hm. apply (f_equal (fun m => m !! "endpoints")) in Hm.
    rewrite lookup_insert_eq, lookup_empty in Hm. discriminate.
  - split; [|vm_compute; reflexivity]. right. split; reflexivity.
Qed.

Lemma envelope_agrees_with_status_witness :
  let resp := eval (ServeHTTP (request "GET" "/nowhere" background)) env0 world0 in
  (status resp = StatusServiceUnavailable /\ sent resp = [ChunkText "Database unavailable"]
   \/ status resp = StatusNotFound /\ sent resp = [ChunkText "404 page not found"]) /\
  Header_Get (headers resp) "X-Content-Type-Options" = "nosniff".
Proof.
  refine (envelope_agrees_with_status env0 world0
            (request "GET" "/nowhere" background) _).
  vm_compute. reflexivity.
Defined.

(** ** The external call *)

Lemma external_latency_at e i :
  latency_at 200 50 e i = external_latency (rand_raw e i mod 200).
Proof. reflexivity. Qed.

(** X6.  Every external call draws its latency as [rand.Intn(200)+50]
    milliseconds: a whole number of milliseconds from 50ms up to, and not
    including, 250ms, in one to one correspondence with the two hundred
    outcomes of [rand.Intn(200)].  The call never takes longer than that
    latency and takes exactly that long when it returns no error. *)
Theorem external_latency_uniform_50_to_250ms :
  (forall ctx endpoint e w,
     let d := latency_at 200 50 e (draws w) in
     (exists n, (n < 200)%nat /\ d = external_latency n) /\
     50 * Millisecond <= d < 250 * Millisecond /\
     0 <= elapsed (simulateExternalAPI ctx endpoint) e w <= d /\
     (snd (eval (simulateExternalAPI ctx endpoint) e w) = None ->
      elapsed (simulateExternalAPI ctx endpoint) e w = d)) /\
  (forall k, 50 <= k < 250 ->
     exists n, ((n < 200)%nat /\ external_latency n = k * Millisecond) /\
               forall n', (n' < 200)%nat -> external_latency n' = k * Millisecond -> n' = n).
Proof.
  split.
  - intros ctx endpoint e w d. subst d.
    pose proof (external_latency_positive e (draws w)) as Hpos.
    split; [|split; [|split]].
    + exists (rand_raw e (draws w) mod 200)%nat. split.
      * apply Nat.mod_upper_bound. lia.
      * apply external_latency_at.
    + pose proof (latency_at_bounds 200 50 e (draws w) ltac:(lia)).
      unfold Millisecond in *. lia.
    + unfold elapsed. rewrite exec_run, run_simulateExternalAPI. wsimpl.
      unfold wait_end.
      pose proof (select_case_bounds (mono w) (latency_at 200 50 e (draws w)) ctx
                    (tie_timer e (selects w))).
      lia.
    + unfold elapsed. rewrite eval_run, exec_run, run_simulateExternalAPI. wsimpl.
      unfold wait_case, wait_end.
      destruct (select_case _ _ _ _) as [sel t] eqn:Hsel. cbn [fst snd].
      destruct sel; cbn [api_result snd]; [|discriminate].
      intros _. apply select_case_timer in Hsel. lia.
  - intros k Hk. exists (Z.to_nat (k - 50)).
    unfold external_latency, latency_of, Millisecond. repeat split; try lia.
Qed.

Lemma external_latency_uniform_50_to_250ms_witness :
  exists n, ((n < 200)%nat /\ external_latency n = 249 * Millisecond) /\
            forall n', (n' < 200)%nat -> external_latency n' = 249 * Millisecond -> n' = n.
Proof.
  refine (proj2 external_latency_uniform_50_to_250ms 249 _). lia.
Defined.

(** X7.  [simulateExternalAPI] returns either a payload and no error or
    no payload and an error, never both and never neither.  Without error
    the payload is an object with exactly the keys [external_data], the
    string "Data from " followed by the endpoint, and [timestamp], the
    Unix second of the wall clock at the instant the timer fired, and the
    call lasted its whole latency.  With an error, the error is the
    context's, the payload is nil, and the context was done no later than
    the instant the timer would have fired; the call ended when the
    context was done.  A context that is never done gives no error. *)
Theorem external_call_returns_payload_or_error ctx endpoint e w :
  let res := eval (simulateExternalAPI ctx endpoint) e w in
  let d := latency_at 200 50 e (draws w) in
  match snd res with
  | None =>
      exists m,
        fst res = VMap m /\
        dom m = {[ "external_data"; "timestamp" ]} /\
        m !! "external_data" = Some (VString ("Data from " +:+ endpoint)) /\
        m !! "timestamp" = Some (VInt (wall_of e (mono w + d) / Second)) /\
        mono (exec (simulateExternalAPI ctx endpoint) e w) = mono w + d
  | Some err =>
      err = Err ctx /\ fst res = VNil /\
      exists c, done_at ctx = Some c /\ c <= mono w + d /\
                mono (exec (simulateExternalAPI ctx endpoint) e w) = Z.max (mono w) c
  end /\
  (done_at ctx = None -> snd res = None).
Proof.
  intros res d. subst res d.
  pose proof (external_latency_positive e (draws w)) as Hpos.
  rewrite eval_run, exec_run, run_simulateExternalAPI. wsimpl.
  unfold wait_case, wait_end. split.
  - destruct (select_case _ _ _ _) as [sel t] eqn:Hsel. cbn [fst snd].
    destruct sel; cbn [api_result fst snd].
    + apply select_case_timer in Hsel.
      replace (mono w + Z.max 0 (latency_at 200 50 e (draws w)))
        with (mono w + latency_at 200 50 e (draws w)) in Hsel by lia.
      subst t. eexists. split; [reflexivity|].
      split; [rewrite !dom_insert_L, dom_singleton_L; set_solver|].
      split; [by simplify_map_eq|]. split; [by simplify_map_eq | reflexivity].
    + destruct (select_case_done _ _ _ _ _ Hsel) as (c & Hc & Ht & Hle).
      split; [reflexivity|]. split; [reflexivity|].
      exists c. split; [exact Hc|]. split; [lia | exact Ht].
  - intros Hnone. rewrite select_case_never by exact Hnone. reflexivity.
Qed.

(** ** The uninterrupted success path *)

(** X8.  A request to [/good] whose context is never done takes exactly
    the sum of the two latencies drawn and is answered with status 200,
    the three users, and as [external_data] the payload of the external
    call: "Data from https://api.example.com/status" with the Unix second
    of the instant the handler finished its waits, which is also the
    instant of [processed_at]. *)
Theorem good_uninterrupted e w r :
  Path r = "/good" -> done_at (Ctx r) = None ->
  let resp := eval (ServeHTTP r) e w in
  let t := mono w + latency_at 90 10 e (draws w) + latency_at 200 50 e (S (draws w)) in
  status resp = StatusOK /\
  mono (exec (ServeHTTP r) e w) = t /\
  exists env m,
    envelope resp = Some env /\
    data_field "users" env = Some (VUsers sample_users) /\
    data_field "processed_at" env = Some (VRFC3339 (wall_of e t)) /\
    data_field "external_data" env = Some (VMap m) /\
    m !! "external_data" = Some (VString "Data from https://api.example.com/status") /\
    m !! "timestamp" = Some (VInt (wall_of e t / Second)).
Proof.
  intros Hp Hnone resp t. subst resp.
  pose proof (database_latency_positive e (draws w)) as Hdb.
  pose proof (external_latency_positive e (S (draws w))) as Hext.
  assert (Hwait : database_wait e w (Ctx r) = TimerFired).
  { apply database_wait_completed. rewrite Hnone. exact I. }
  pose proof (good_counters e w r Hp) as Hc. rewrite Hwait in Hc.
  destruct Hc as (Hmono & _).
  rewrite select_case_never in Hmono by exact Hnone. cbn [snd] in Hmono.
  assert (Ht : mono (exec (ServeHTTP r) e w) = t) by (subst t; lia).
  assert (Hextw : external_wait e w (Ctx r) = TimerFired).
  { unfold external_wait, wait_case. rewrite select_case_never by exact Hnone. reflexivity. }
  pose proof Ht as Ht'.
  rewrite eval_ServeHTTP. rewrite exec_ServeHTTP in Ht. rewrite Hp in Ht |- *.
  change (handler_for "/good") with goodHandler in *.
  destruct (goodHandler_completed r e (set_writer newWriter w) eq_refl Hwait)
    as (_ & Hw & _).
  rewrite external_wait_set_writer, Hextw, Ht in Hw. cbn [api_result fst] in Hw.
  rewrite Hw. split; [reflexivity|]. split; [exact Ht'|].
  eexists _, _. rewrite envelope_json. split; [reflexivity|].
  rewrite good_users, good_processed_at, good_external_data.
  split; [reflexivity|]. split; [reflexivity|]. split; [reflexivity|].
  split; by simplify_map_eq.
Qed.

Lemma good_uninterrupted_witness :
  mono (exec (ServeHTTP (request "GET" "/good" background)) env0 world0)
  = mono world0 + latency_at 90 10 env0 (draws world0)
    + latency_at 200 50 env0 (S (draws world0)).
Proof.
  refine (proj1 (proj2 (good_uninterrupted env0 world0
            (request "GET" "/good" background) _ _))).
  - reflexivity.
  - reflexivity.
Defined.

(** ** The service description *)

(** X9.  A request to [/] is answered with status 200, the version
    "1.0.0" and a list of endpoints.  The list is exactly the patterns registered in [main]
    other than [/] itself, in the order registered, and no request to a
    listed endpoint is ever answered with 404. *)
Theorem advertised_endpoints_are_served e w r :
  Path r = "/" ->
  let resp := eval (ServeHTTP r) e w in
  status resp = StatusOK /\
  exists env endpoints,
    envelope resp = Some env /\
    data_field "version" env = Some (VString "1.0.0") /\
    data_field "endpoints" env = Some (VStrings endpoints) /\
    map fst routes = app endpoints ["/"] /\
    forall e' w' r', Path r' ∈ endpoints ->
      status (eval (ServeHTTP r') e' w') <> StatusNotFound.
Proof.
  intros Hp resp. subst resp.
  rewrite (root_response e w r) by (rewrite Hp; discriminate).
  rewrite decide_True by exact Hp.
  split; [reflexivity|].
  eexists _, _. rewrite envelope_json. split; [reflexivity|].
  split; [unfold data_field, root_envelope; cbn [Data]; by simplify_map_eq|].
  split; [unfold data_field, root_envelope; cbn [Data]; by simplify_map_eq|].
  split; [reflexivity|].
  intros e' w' r' Hin.
  destruct (reply_cases e' w' r')
    as [ext t Hq _ H|Hq _ H|t Hq H|t Hq H|u t Hq H|Hq H|H0 H1 H2 H3 H4 H];
    rewrite H; rewrite ?status_json, ?status_error; try discriminate.
  rewrite !elem_of_cons, elem_of_nil in Hin.
  destruct Hin as [?|[?|[?|[?|[]]]]]; contradiction.
Qed.

Lemma advertised_endpoints_are_served_witness :
  status (eval (ServeHTTP (request "GET" "/" background)) env0 world0) = StatusOK.
Proof.
  refine (proj1 (advertised_endpoints_are_served env0 world0
            (request "GET" "/" background) _)).
  reflexivity.
Defined.

(** ** The start time *)

(** X10.  Whatever requests [main] has served, [startTime] still holds
    the reading [main] took before serving, with its monotonic part, and
    the monotonic clock has not gone back.  Hence the next response
    carries an uptime exactly when it answers [/health], and that uptime
    is the monotonic time since the start: no other endpoint reports an
    uptime. *)
Theorem start_time_is_set_once e w evs :
  let w' := exec (main evs) e w in
  startTime w' = {| wall := wall_of e (mono w); monotonic := Some (mono w) |} /\
  mono w <= mono w' /\
  forall r, uptime_of (eval (ServeHTTP r) e w') =
            if decide (Path r = "/health") then Some (mono w' - mono w) else None.
Proof.
  intros w'. subst w'. rewrite exec_run, run_main. rewrite <- exec_run.
  set (w0 := set_startTime {| wall := wall_of e (mono w); monotonic := Some (mono w) |} w).
  destruct (serve_all_frame evs e w0) as [Hmono Hstart].
  split; [exact Hstart|]. split; [exact Hmono|].
  intros r. destruct (decide (Path r = "/health")) as [Hp|Hp].
  - apply (health_uptime e _ r (mono w) Hp). rewrite Hstart. reflexivity.
  - destruct (reply_cases e (exec (serve_all evs) e w0) r)
      as [ext t Hq _ H|Hq _ H|t Hq H|t Hq H|u t Hq H|Hq H|H0 H1 H2 H3 H4 H];
      try contradiction; rewrite H; unfold uptime_of;
      rewrite ?envelope_json, ?envelope_error; cbn [mbind option_bind]; reflexivity.
Qed.

(** ** The log *)

Lemma log_grows_refl w : log_grows w w.
Proof. unfold log_grows. reflexivity. Qed.

Lemma log_grows_trans w1 w2 w3 : log_grows w1 w2 -> log_grows w2 w3 -> log_grows w1 w3.
Proof. unfold log_grows. intros H1 H2. etransitivity; eassumption. Qed.

Create HintDb grow.

(** As [frame], for [log_grows]. *)
Ltac grow :=
  repeat match goal with
  | |- preserves _ (mbind _ _) =>
      apply (preserves_bind _ log_grows_trans); [ | intros ? ]
  | |- preserves _ (mret _) => apply (preserves_ret _ log_grows_refl)
  | |- preserves _ (gets _) => apply (preserves_gets _ log_grows_refl)
  | |- preserves _ ask_env => apply (preserves_ask _ log_grows_refl)
  | |- preserves _ (for_range _ _) =>
      apply (preserves_for_range _ log_grows_refl log_grows_trans); intros ?
  | |- preserves _ (match ?x with _ => _ end) => destruct x
  | |- preserves _ (modify _) =>
      apply preserves_modify; intros ?; unfold log_grows; cbn; reflexivity
  | |- _ => solve [auto with grow]
  end.

Lemma Printf_grows f a : preserves log_grows (Printf f a).
Proof.
  unfold Printf. apply preserves_modify. intros w. unfold log_grows. cbn.
  apply prefix_app_r. reflexivity.
Qed.

Lemma Intn_grows n : preserves log_grows (Intn n).
Proof. unfold Intn. grow. Qed.

#[local] Hint Resolve Printf_grows Intn_grows : grow.

Lemma random_latency_grows span base : preserves log_grows (random_latency span base).
Proof. unfold random_latency. grow. Qed.

Lemma Now_grows : preserves log_grows Now.
Proof. unfold Now. grow. Qed.

Lemma Sleep_grows d : preserves log_grows (Sleep d).
Proof. unfold Sleep. grow. Qed.

Lemma select_wait_grows ctx latency : preserves log_grows (select_wait ctx latency).
Proof. unfold select_wait. grow. Qed.

#[local] Hint Resolve random_latency_grows Now_grows Sleep_grows select_wait_grows : grow.

Lemma Since_grows t : preserves log_grows (Since t).
Proof. unfold Since. grow. Qed.

Lemma Header_Set_grows k v : preserves log_grows (Header_Set k v).
Proof. unfold Header_Set. grow. Qed.

Lemma Header_Del_grows k : preserves log_grows (Header_Del k).
Proof. unfold Header_Del. grow. Qed.

Lemma WriteHeader_grows code : preserves log_grows (WriteHeader code).
Proof.
  unfold WriteHeader. apply preserves_modify. intros w. unfold log_grows.
  destruct (wrote (writer w)); cbn; reflexivity.
Qed.

#[local] Hint Resolve Since_grows Header_Set_grows Header_Del_grows WriteHeader_grows : grow.

Lemma Write_grows c : preserves log_grows (Write c).
Proof. unfold Write. grow. Qed.

#[local] Hint Resolve Write_grows : grow.

Lemma Encode_grows r : preserves log_grows (Encode r).
Proof. unfold Encode. grow. Qed.

Lemma Error_grows msg code : preserves log_grows (Error msg code).
Proof. unfold Error. grow. Qed.

#[local] Hint Resolve Encode_grows Error_grows : grow.

Lemma simulateDatabase_grows ctx op : preserves log_grows (simulateDatabase ctx op).
Proof. unfold simulateDatabase. grow. Qed.

Lemma simulateExternalAPI_grows ctx endpoint :
  preserves log_grows (simulateExternalAPI ctx endpoint).
Proof. unfold simulateExternalAPI. grow. Qed.

#[local] Hint Resolve simulateDatabase_grows simulateExternalAPI_grows : grow.

Lemma grows_after_first f a (rest : M unit) e w :
  preserves log_grows rest ->
  app (logs w) [{| format := f; args := a |}] `prefix_of`
    logs (exec (Printf f a;; rest) e w).
Proof.
  intros H. rewrite exec_run, run_bind, run_Printf. cbn [fst snd].
  apply (H e (add_log {| format := f; args := a |} w)).
Qed.

(** X11.  Serving a request never removes or changes a line logged
    before.  The handlers of [/good], [/bad], [/admin] and [/health] first
    append a line that names the remote address of the request; the
    handler of [/], also when it answers 404, and the mux's own 404 log
    nothing. *)
Theorem request_log_lines e w r :
  let w' := exec (ServeHTTP r) e w in
  match first_line r with
  | Some l => app (logs w) [l] `prefix_of` logs w'
  | None => logs w' = logs w
  end.
Proof.
  intros w'. subst w'. rewrite exec_ServeHTTP, mux_routes. unfold first_line.
  destruct (decide (Path r = "/good")).
  { unfold goodHandler. apply (grows_after_first _ _ _ e (set_writer newWriter w)). grow. }
  destruct (decide (Path r = "/bad")).
  { unfold badHandler. apply (grows_after_first _ _ _ e (set_writer newWriter w)). grow. }
  destruct (decide (Path r = "/admin")).
  { unfold adminHandler. apply (grows_after_first _ _ _ e (set_writer newWriter w)). grow. }
  destruct (decide (Path r = "/health")).
  { unfold healthHandler. apply (grows_after_first _ _ _ e (set_writer newWriter w)). grow. }
  destruct (String.prefix "/" (Path r)).
  - rewrite exec_run. unfold rootHandler. destruct (decide (Path r ≠ "/")).
    + unfold NotFound. rewrite run_Error by reflexivity. reflexivity.
    + unfold Header_Set, Encode, Write, WriteHeader.
      rewrite !run_bind, !run_modify, run_ret. reflexivity.
  - rewrite exec_run. unfold NotFound. rewrite run_Error by reflexivity. reflexivity.
Qed.
